(** * Convergence-driven cutoff sweeps of the CP2K scripts

    A shallow embedding of [scripts/CP2K/integration_grid_optimizer.py]
    (class [IntegrationGridOptimizer]) and of
    [scripts/CP2K/optimize_interaction_cutoff.py] (class [CutoffOptimizer]),
    with the properties of the sweep, of the convergence check and of the
    parsing of the CP2K output file.

    Conventions of the embedding:
    - a Python [float] / [numpy.float64] is a binary64 [float] of the kernel;
    - a numpy integer (a candidate of [np.linspace(..., dtype=int)]) is a [Z];
    - a [dict] with string keys is a [gmap string _]; a missing key raises
      [KeyError];
    - a Python exception or [sys.exit] is the [Raise] alternative of [result];
    - a method that mutates [self] is a function [optimizer -> optimizer *
      result _]: the state reached when an exception is raised is kept. *)

From Stdlib Require Import ZArith QArith Qround Lqa Ascii.
From Stdlib Require Import Floats.PrimFloat Floats.FloatOps Floats.SpecFloat.
From stdpp Require Import gmap strings list.

Local Close Scope Q_scope.
Local Open Scope Z_scope.

(** ** Python values, exceptions and results *)

Inductive exn : Type :=
| KeyError (key : string)
| IndexError
| ValueError
| UnboundLocalError (name : string)
| ZeroDivisionError
| AttributeError (name : string)
| FileNotFoundError (path : string)
| SystemExit (code : Z).

Inductive result (A : Type) : Type :=
| Ok (a : A)
| Raise (e : exn).
Arguments Ok {A} a.
Arguments Raise {A} e.

#[global] Instance result_ret : MRet result := fun A a => Ok a.
#[global] Instance result_bind : MBind result := fun A B f m =>
  match m with
  | Ok a => f a
  | Raise e => Raise e
  end.

#[global] Instance result_fmap : FMap result := fun A B f m =>
  match m with
  | Ok a => Ok (f a)
  | Raise e => Raise e
  end.

Definition of_option {A} (o : option A) (e : exn) : result A :=
  match o with
  | Some a => Ok a
  | None => Raise e
  end.

(** [d[k]] on a dict. *)
Definition getitem {A} (d : gmap string A) (k : string) : result A :=
  of_option (d !! k) (KeyError k).

(** [l[-1]] and [l[-2]] on a list or array. *)
Definition index_neg1 {A} (l : list A) : result A :=
  of_option (last l) IndexError.

Definition index_neg2 {A} (l : list A) : result A :=
  if decide (2 <= length l)%nat
  then of_option (l !! (length l - 2)%nat) IndexError
  else Raise IndexError.

(** A value bound in the MGRID section: a candidate (numpy integer) or a
    float. *)
Inductive value : Type :=
| VInt (z : Z)
| VFloat (f : float).

(** ** Strings: [re.search] with a literal pattern, [str.split] *)

Fixpoint prefixb (p s : string) : bool :=
  match p, s with
  | EmptyString, _ => true
  | String a p', String b s' => Ascii.eqb a b && prefixb p' s'
  | String _ _, EmptyString => false
  end.

(** [re.search(pat, s)] for a pattern without metacharacters: [pat] occurs in
    [s]. The three patterns of the source are of this kind. *)
Fixpoint contains (pat s : string) : bool :=
  prefixb pat s ||
  match s with
  | EmptyString => false
  | String _ s' => contains pat s'
  end.

(** [fnmatch(name, "*" + suf)]: [name] ends with [suf]. *)
Fixpoint ends_with (suf s : string) : bool :=
  String.eqb s suf ||
  match s with
  | EmptyString => false
  | String _ s' => ends_with suf s'
  end.

(** The ASCII characters [str.split()] splits on: tab, newline, vertical tab,
    form feed, carriage return, the separators 28-31 and the space. *)
Definition is_space (c : Ascii.ascii) : bool :=
  let n := Ascii.nat_of_ascii c in
  ((9 <=? n) && (n <=? 13) || (28 <=? n) && (n <=? 32))%nat.

(** [split_go cur s]: [cur] is the token being read, reversed. *)
Fixpoint split_go (cur : string) (s : string) : list string :=
  let flush := match cur with
               | EmptyString => []
               | _ => [String.rev cur]
               end in
  match s with
  | EmptyString => flush
  | String c s' =>
      if is_space c then flush ++ split_go EmptyString s'
      else split_go (String c cur) s'
  end.

(** [s.split()] *)
Definition split (s : string) : list string := split_go EmptyString s.

(** ** numpy *)

(** [bool(x)] of a float: non-zero (a NaN is true). *)
Definition truthy (x : float) : bool := negb (PrimFloat.eqb x 0%float).

(** [np.diff(a)]: [out[i] = a[i+1] - a[i]]. *)
Fixpoint np_diff (a : list float) : list float :=
  match a with
  | x :: (y :: _) as a' => PrimFloat.sub y x :: np_diff a'
  | _ => []
  end.

(** [np.linalg.norm(v)] of a vector: the square root of the sum of squares. *)
Definition np_linalg_norm (v : list float) : float :=
  PrimFloat.sqrt (foldl (fun acc x => PrimFloat.add acc (PrimFloat.mul x x)) 0%float v).

(** [float(n)] of an integer, correctly rounded. *)
Definition float_of_Z (z : Z) : float :=
  SF2Prim (binary_normalize prec emax z 0 false).

(** [np.linspace(start, stop, num, dtype=int)] in exact arithmetic: the
    samples [start + i * step] with [step = (stop - start) / (num - 1)], the
    last one replaced by [stop] when [num > 1], each rounded down
    ([np.floor]) to an integer. numpy computes the samples in binary64;
    [np_linspace_f64] below is that computation, and the two agree on the
    ranges of the constructors' defaults (see [linspace_f64_defaults]). *)
Definition np_linspace_int (start stop : Q) (num : nat) : list Z :=
  let div := inject_Z (Z.of_nat num - 1) in
  let step := ((stop - start) / div)%Q in
  let y := map (fun i : nat => (start + inject_Z (Z.of_nat i) * step)%Q) (seq 0 num) in
  let y := match num with
           | S (S n) => take (S n) y ++ [stop]
           | _ => y
           end in
  map Qfloor y.

(** [np.floor] of a finite binary64 number, as an integer. *)
Definition floor_f64 (x : float) : option Z :=
  match Prim2SF x with
  | S754_zero _ => Some 0
  | S754_finite s m e =>
      let v := if s then Z.neg m else Z.pos m in
      Some (if 0 <=? e then v * 2 ^ e else v / 2 ^ (- e))
  | _ => None
  end.

(** The binary64 computation of [np.linspace(start, stop, num, dtype=int)]
    for integer [start] and [stop] with a non-zero step. *)
Definition np_linspace_f64 (start stop : Z) (num : nat) : list (option Z) :=
  let div := float_of_Z (Z.of_nat num - 1) in
  let delta := PrimFloat.sub (float_of_Z stop) (float_of_Z start) in
  let step := PrimFloat.div delta div in
  let y := map (fun i : nat =>
                  PrimFloat.add (PrimFloat.mul (float_of_Z (Z.of_nat i)) step)
                                (float_of_Z start)) (seq 0 num) in
  let y := match num with
           | S (S n) => take (S n) y ++ [float_of_Z stop]
           | _ => y
           end in
  map floor_f64 y.

(** ** The convergence check *)

(** The body of [_check_progress], shared by the two classes, on the energy
    and force histories it reads: [0] when fewer than two energies are
    recorded or when [en_diff[-1] and fr_diff[-1] < tolerance] holds, [1]
    otherwise. By the docstring, [1] means continue and [0] means that the
    analysis is complete. *)
Definition check_progress (energy_array force_array : list float)
    (tolerance : float) : result Z :=
  if decide (length energy_array < 2)%nat then Ok 0
  else
    let en_diff := np_diff energy_array in
    let fr_diff := np_diff force_array in
    e ← index_neg1 en_diff;
    if truthy e then
      f ← index_neg1 fr_diff;
      if PrimFloat.ltb f tolerance then Ok 0 else Ok 1
    else Ok 1.

(** ** Reading the observables from the CP2K output

    An open text file is the list of the lines still to be read. [py_float]
    is [float(s)] on a token ([None]: [ValueError]); numpy's
    [astype(float)] on an array of tokens converts each token the same way.
    [py_int] is [int(s)]. *)

Section ObservableExtractor.
Variable py_float : string -> option float.
Variable py_int : string -> option Z.

(** The loop of [_read_energy]: [energy] is overwritten at every line that
    matches, so every matching line is converted. *)
Fixpoint read_energy_loop (energy : option float) (f_object : list string)
    : result (option float) :=
  match f_object with
  | [] => Ok energy
  | line :: rest =>
      if contains "Total FORCE_EVAL" line then
        tok ← index_neg1 (split line);
        e ← of_option (py_float tok) ValueError;
        read_energy_loop (Some e) rest
      else read_energy_loop energy rest
  end.

Definition _read_energy (f_object : list string) : result float :=
  energy ← read_energy_loop None f_object;
  match energy with
  | None => Raise (SystemExit 1)
  | Some e => Ok e
  end.

Definition pattern_1 : string :=
  "# Atom   Kind   Element          X              Y              Z".
Definition pattern_2 : string := "SUM OF ATOMIC FORCES".

(** The first loop of [_read_forces]. The locals [start] and [stop] are
    unbound ([None]) until a marker line assigns them. *)
Fixpoint find_markers (i : Z) (f_object : list string)
    (start stop : option Z) : option Z * option Z :=
  match f_object with
  | [] => (start, stop)
  | line :: rest =>
      if contains pattern_1 line then find_markers (i + 1) rest (Some (i + 1)) stop
      else if contains pattern_2 line then find_markers (i + 1) rest start (Some (i - 1))
      else find_markers (i + 1) rest start stop
  end.

(** [np.array(line.split())[3:].astype(float)] *)
Definition row_vector (line : string) : result (list float) :=
  mapM (fun tok => of_option (py_float tok) ValueError) (drop 3 (split line)).

(** The second loop of [_read_forces]. [force] starts as the Python float
    [0.0] and is a [numpy.float64] once a norm was added: [is_np] records
    which. Reading an unbound local raises [UnboundLocalError]. *)
Fixpoint sum_rows (i : Z) (f_object : list string) (start stop : option Z)
    (force : float) (is_np : bool) : result (float * bool) :=
  match f_object with
  | [] => Ok (force, is_np)
  | line :: rest =>
      s ← of_option start (UnboundLocalError "start");
      if i <? s then sum_rows (i + 1) rest start stop force is_np
      else
        e ← of_option stop (UnboundLocalError "stop");
        if (s <=? i) && (i <=? e) then
          v ← row_vector line;
          sum_rows (i + 1) rest start stop
                   (PrimFloat.add force (np_linalg_norm v)) true
        else Ok (force, is_np)
  end.

(** [force/n_atoms]: a Python float divided by the integer [0] raises
    [ZeroDivisionError]; a [numpy.float64] is divided as binary64.
    [n_atoms] is converted as binary64 does (an atom count is far below the
    largest binary64 number). *)
Definition _read_forces (f_object : list string) (n_atoms : Z) : result float :=
  let '(start, stop) := find_markers 0 f_object None None in
  '(force, is_np) ← sum_rows 0 f_object start stop 0%float false;
  if negb is_np && (n_atoms =? 0) then Raise ZeroDivisionError
  else Ok (PrimFloat.div force (float_of_Z n_atoms)).

(** *** Locating the output file

    [listdir d] are the names in directory [d]. [glob_xyz] is
    [glob.glob(f"{cwd}/*.xyz")] for a [cwd] without wildcard characters:
    [os.path.split] gives the directory, the names that are not hidden and
    match [*.xyz] are joined to it with [os.path.join]. *)

Fixpoint all_slashes (s : string) : bool :=
  match s with
  | EmptyString => true
  | String c s' => Ascii.eqb c "/"%char && all_slashes s'
  end.

Fixpoint lstrip_slash (s : string) : string :=
  match s with
  | String c s' => if Ascii.eqb c "/"%char then lstrip_slash s' else s
  | EmptyString => EmptyString
  end.

Definition rstrip_slash (s : string) : string :=
  String.rev (lstrip_slash (String.rev s)).

Definition glob_dirname (cwd : string) : string :=
  let head := cwd +:+ "/" in
  if all_slashes head then head else rstrip_slash head.

Definition path_join (d name : string) : string :=
  if ends_with "/" d then d +:+ name else d +:+ "/" +:+ name.

Definition glob_xyz (listdir : string -> list string) (cwd : string) : list string :=
  let d := glob_dirname cwd in
  map (path_join d)
      (List.filter (fun name => negb (prefixb "." name) && ends_with ".xyz" name)
                   (listdir d)).

Definition _get_force_file (listdir : string -> list string)
    (cwd project_name : string) : result string :=
  let force_file := project_name +:+ ".out" in
  let files := glob_xyz listdir cwd in
  if bool_decide (force_file ∉ files) then Raise (SystemExit 1)
  else Ok force_file.

(** [read_file path] are the lines of the file, when it exists. *)
Definition _fetch_properties (listdir : string -> list string)
    (read_file : string -> option (list string))
    (cwd project_name : string) : result (float * float) :=
  force_file ← _get_force_file listdir cwd project_name;
  f_object ← of_option (read_file force_file) (FileNotFoundError force_file);
  tok ← of_option (head (split (List.hd EmptyString f_object))) IndexError;
  n_atoms ← of_option (py_int tok) ValueError;
  energy ← _read_energy (tail f_object);
  force ← _read_forces f_object n_atoms;
  Ok (energy, force).

End ObservableExtractor.

(** ** The state of an optimizer and its methods *)

(** How a [for] loop with a [break] was left. *)
Inductive loop_exit : Type :=
| Exhausted
| Break.

(** A method of an object with state [S]: the new state and what is returned
    or raised. The state reached when an exception is raised is kept. *)
Definition method (S A : Type) : Type := S -> S * result A.

#[global] Instance method_ret {S} : MRet (method S) := fun A a self => (self, Ok a).
#[global] Instance method_bind {S} : MBind (method S) := fun A B f m self =>
  match m self with
  | (self', Ok a) => f a self'
  | (self', Raise e) => (self', Raise e)
  end.

Definition lift {S A} (r : result A) : method S A := fun self => (self, r).
Definition get {S} : method S S := fun self => (self, Ok self).
Definition modify {S} (f : S -> S) : method S unit := fun self => (f self, Ok tt).

Module IntegrationGridOptimizer.

(** The attributes of [self] that the methods read or write. [m_grid] is
    the [__dict__] of the MGRID section of the calculator. [runs] is not
    an attribute: it logs the MGRID settings of every [calculator.run()],
    the effect of the class on the world. *)
Record optimizer : Type := Optimizer {
  start : gmap string Q;
  stop : gmap string Q;
  tolerance : float;
  cwd : string;
  project_name : string;
  m_grid : gmap string value;
  loop_range : gmap string (list Z);
  force_array : gmap string (list float);
  energy_array : gmap string (list float);
  runs : list (gmap string value)
}.

Definition set_m_grid (f : gmap string value -> gmap string value)
    (self : optimizer) : optimizer :=
  Optimizer (start self) (stop self) (tolerance self) (cwd self)
    (project_name self) (f (m_grid self)) (loop_range self)
    (force_array self) (energy_array self) (runs self).

Definition set_loop_range (f : gmap string (list Z) -> gmap string (list Z))
    (self : optimizer) : optimizer :=
  Optimizer (start self) (stop self) (tolerance self) (cwd self)
    (project_name self) (m_grid self) (f (loop_range self))
    (force_array self) (energy_array self) (runs self).

Definition set_force_array
    (f : gmap string (list float) -> gmap string (list float))
    (self : optimizer) : optimizer :=
  Optimizer (start self) (stop self) (tolerance self) (cwd self)
    (project_name self) (m_grid self) (loop_range self)
    (f (force_array self)) (energy_array self) (runs self).

Definition set_energy_array
    (f : gmap string (list float) -> gmap string (list float))
    (self : optimizer) : optimizer :=
  Optimizer (start self) (stop self) (tolerance self) (cwd self)
    (project_name self) (m_grid self) (loop_range self)
    (force_array self) (f (energy_array self)) (runs self).

Definition set_runs
    (f : list (gmap string value) -> list (gmap string value))
    (self : optimizer) : optimizer :=
  Optimizer (start self) (stop self) (tolerance self) (cwd self)
    (project_name self) (m_grid self) (loop_range self)
    (force_array self) (energy_array self) (f (runs self)).

Abbreviation M := (method optimizer).

Inductive stop_arg : Type :=
| StopDict (d : gmap string Q)
| StopStr (s : string).

Definition default_start : gmap string Q :=
  <["Cutoff" := 100%Q]> (<["Ngrids" := 5%Q]> (<["Rel_cutoff" := 60%Q]> ∅)).
Definition default_stop : gmap string Q :=
  <["Cutoff" := 1500%Q]> (<["Ngrids" := 8%Q]> (<["Rel_cutoff" := 120%Q]> ∅)).

(** The constructor. [parsed_mgrid] is the MGRID section that
    [calculator.parse(template_file)] yields; what [parse] itself may raise
    is outside the embedding. A string for [stop] (the auto mode) and a
    missing template end the program. The three dicts [loop_range],
    [force_array] and [energy_array] start empty. *)
Definition __init__ (start : option (gmap string Q)) (stop : option stop_arg)
    (template_file : option string) (parsed_mgrid : gmap string value)
    (tolerance : float) (cwd project_name : string) : result optimizer :=
  let start := default default_start start in
  let stop := default (StopDict default_stop) stop in
  match stop, template_file with
  | StopStr _, _ => Raise (SystemExit 1)
  | StopDict _, None => Raise (SystemExit 1)
  | StopDict stop, Some _ =>
      Ok (Optimizer start stop tolerance cwd project_name parsed_mgrid ∅ ∅ ∅ [])
  end.

Section Methods.
(** [fetch mg]: the energy and the mean force that
    [_fetch_properties] returns after a run of the calculator with the
    MGRID settings [mg], or what it raises. *)
Variable fetch : gmap string value -> result (float * float).

Definition _get_static_range : M unit :=
  self ← get;
  a ← lift (getitem (start self) "Cutoff");
  b ← lift (getitem (stop self) "Cutoff");
  modify (set_loop_range <["Cutoff" := np_linspace_int a b 10]>);;
  a ← lift (getitem (start self) "Rel_cutoff");
  b ← lift (getitem (stop self) "Rel_cutoff");
  modify (set_loop_range <["Rel_cutoff" := np_linspace_int a b 10]>);;
  a ← lift (getitem (start self) "Ngrids");
  b ← lift (getitem (stop self) "Ngrids");
  modify (set_loop_range <["Ngrids" := np_linspace_int a b 4]>).

(** The [updater] dict is the list of its items, in order. *)
Definition _update_property (updater : list (string * value)) : M unit :=
  modify (set_m_grid (fun mg =>
    foldl (fun mg item => <[item.1 := item.2]> mg) mg updater)).

Definition _perform_energy_force_calculation : M unit :=
  modify (fun self => set_runs (fun l => l ++ [m_grid self]) self).

Definition _update_property_arrays (optimized_parameter : string) : M unit :=
  self ← get;
  '(energy, force) ← lift (fetch (m_grid self));
  ea ← lift (getitem (energy_array self) optimized_parameter);
  modify (set_energy_array <[optimized_parameter := ea ++ [energy]]>);;
  fa ← lift (getitem (force_array self) optimized_parameter);
  modify (set_force_array <[optimized_parameter := fa ++ [force]]>).

Definition _perform_loop_operation
    (optimized_parameter : list (string * value)) : M unit :=
  _update_property optimized_parameter;;
  _perform_energy_force_calculation;;
  key ← lift (of_option (head optimized_parameter.*1) IndexError);
  _update_property_arrays key.

Definition _check_progress (optimized_parameter : string) : M Z :=
  self ← get;
  ea ← lift (getitem (energy_array self) optimized_parameter);
  if decide (length ea < 2)%nat then mret 0
  else
    fa ← lift (getitem (force_array self) optimized_parameter);
    lift (check_progress ea fa (tolerance self)).

(** The loop shared by the three [_run_..._optimization] methods:
    [param] is the key that is swept and written, [key] the key given to
    [_check_progress]. *)
Fixpoint sweep (param key : string) (candidates : list Z) : M loop_exit :=
  match candidates with
  | [] => mret Exhausted
  | item :: rest =>
      _perform_loop_operation [(param, VInt item)];;
      r ← _check_progress key;
      if decide (r = 1) then sweep param key rest
      else
        self ← get;
        ea ← lift (getitem (energy_array self) param);
        v ← lift (index_neg2 ea);
        _update_property [(param, VFloat v)];;
        mret Break
  end.

Definition run_stage (param key : string) : M loop_exit :=
  self ← get;
  candidates ← lift (getitem (loop_range self) param);
  sweep param key candidates.

Definition _run_cutoff_optimization : M loop_exit :=
  run_stage "Cutoff" "Cutoff".
Definition _run_rel_cutoff_optimization : M loop_exit :=
  run_stage "Rel_cutoff" "Rel_cutoff".
Definition _run_n_grids_optimization : M loop_exit :=
  run_stage "Ngrids" "nNrids".

Definition _set_defaults_parameters : M unit :=
  self ← get;
  rel ← lift (getitem (loop_range self) "Rel_cutoff");
  rel0 ← lift (of_option (head rel) IndexError);
  ngr ← lift (getitem (loop_range self) "Ngrids");
  ngr0 ← lift (of_option (head ngr) IndexError);
  _update_property [("Rel_cutoff", VInt rel0); ("Ngrids", VInt ngr0)].

(** [_build_cell] acts on the SUBSYS section of the calculator only. *)
Definition _build_cell : M unit := mret tt.

Definition run_optimizer : M unit :=
  _get_static_range;;
  _set_defaults_parameters;;
  _build_cell;;
  _run_cutoff_optimization;;
  _run_rel_cutoff_optimization;;
  _run_n_grids_optimization;;
  mret tt.

End Methods.

(** *** Vocabulary of the statements about the sweep *)

(** The state after the run of candidate [c] of parameter [p] gave the
    energy [e] and the force [f], the histories of [p] being [ea] and [fa]
    before. *)
Definition after_run (p : string) (c : Z) (e f : float) (ea fa : list float)
    (self : optimizer) : optimizer :=
  Optimizer (start self) (stop self) (tolerance self) (cwd self)
    (project_name self) (<[p := VInt c]> (m_grid self)) (loop_range self)
    (<[p := fa ++ [f]]> (force_array self))
    (<[p := ea ++ [e]]> (energy_array self))
    (runs self ++ [<[p := VInt c]> (m_grid self)]).

(** From [self] to [self'] the MGRID section changed at most at key [p]. *)
Definition only_at (p : string) (self self' : optimizer) : Prop :=
  forall k, k <> p -> m_grid self' !! k = m_grid self !! k.


(** What [run_optimizer] does before the first stage. *)
Definition setup : M unit :=
  _get_static_range;; _set_defaults_parameters;; _build_cell.

End IntegrationGridOptimizer.

Module CutoffOptimizer.

(** The attributes of [self]. [calculator] and [loop_range] are only
    annotated by the constructor: they are unset ([None]) until a method
    assigns them. [runs] logs the cutoff of every SCF run. *)
Record optimizer : Type := Optimizer {
  start : Q;
  stop : Q;
  tolerance : float;
  calculator : option (gmap string value);
  loop_range : option (list Z);
  force_array : list float;
  energy_array : list float;
  runs : list Z
}.

Abbreviation M := (method optimizer).

Inductive stop_arg : Type :=
| StopNum (q : Q)
| StopStr (s : string).

Definition __init__ (start : Q) (stop : stop_arg) (calc_parameters : option (gmap string value))
    (tolerance : float) : result optimizer :=
  match stop, calc_parameters with
  | StopStr _, _ => Raise (SystemExit 1)
  | StopNum _, None => Raise (SystemExit 1)
  | StopNum stop, Some _ => Ok (Optimizer start stop tolerance None None [] [] [])
  end.

Section Methods.
(** The calculator attached to [atoms], as functions of the cutoff it was
    given: the energy ([atoms.get_potential_energies()], taken as one
    number) and the reduced force
    ([_reduce_forces(atoms.get_forces())]). *)
Variable get_potential_energies : Z -> result float.
Variable get_reduced_forces : Z -> result float.

Definition _get_static_range : M unit :=
  modify (fun self =>
    Optimizer (start self) (stop self) (tolerance self) (calculator self)
      (Some (np_linspace_int (start self) (stop self) 10))
      (force_array self) (energy_array self) (runs self)).

Definition _build_ase_calculator (calc_parameters : gmap string value) : M unit :=
  modify (fun self =>
    Optimizer (start self) (stop self) (tolerance self)
      (Some (<["max_scf" := VInt 1]> calc_parameters)) (loop_range self)
      (force_array self) (energy_array self) (runs self)).

(** [item] is the cutoff that [_perform_loop_operation] has just given to
    the calculator. *)
Definition _run_scf_minimization (item : Z) : M unit :=
  modify (fun self =>
    Optimizer (start self) (stop self) (tolerance self) (calculator self)
      (loop_range self) (force_array self) (energy_array self)
      (runs self ++ [item]));;
  energy ← lift (get_potential_energies item);
  modify (fun self =>
    Optimizer (start self) (stop self) (tolerance self) (calculator self)
      (loop_range self) (force_array self) (energy_array self ++ [energy])
      (runs self));;
  force ← lift (get_reduced_forces item);
  modify (fun self =>
    Optimizer (start self) (stop self) (tolerance self) (calculator self)
      (loop_range self) (force_array self ++ [force]) (energy_array self)
      (runs self)).

Definition _perform_loop_operation (item : Z) : M unit :=
  self ← get;
  c ← lift (of_option (calculator self) (AttributeError "calculator"));
  modify (fun self =>
    Optimizer (start self) (stop self) (tolerance self)
      (Some (<["cutoff" := VInt item]> c)) (loop_range self)
      (force_array self) (energy_array self) (runs self));;
  _run_scf_minimization item.

Definition _check_progress : M Z :=
  self ← get;
  lift (check_progress (energy_array self) (force_array self) (tolerance self)).

(** The loop of [run_optimizer]. *)
Fixpoint sweep (candidates : list Z) : M loop_exit :=
  match candidates with
  | [] => mret Exhausted
  | item :: rest =>
      _perform_loop_operation item;;
      r ← _check_progress;
      if decide (r = 1) then sweep rest else mret Break
  end.

Definition run_optimizer : M loop_exit :=
  _get_static_range;;
  self ← get;
  candidates ← lift (of_option (loop_range self) (AttributeError "loop_range"));
  sweep candidates.

End Methods.

End CutoffOptimizer.

(** ** Conversions for the examples

    [float(s)] and [int(s)] on plain decimal tokens: an optional sign, digits
    and at most one point. With at most 15 digits the quotient of the two
    integers is the correctly rounded value, as [float] returns it. Other
    tokens are outside these two functions ([None]); the theorems below hold
    for every conversion, the examples use these. *)

Definition digit (c : ascii) : option Z :=
  let n := Z.of_nat (nat_of_ascii c) in
  if (48 <=? n) && (n <=? 57) then Some (n - 48) else None.

Fixpoint dec_go (s : string) (seen_dot : bool) (mant : Z) (frac ndig : nat)
    : option (Z * nat * nat) :=
  match s with
  | EmptyString => if ndig is O then None else Some (mant, frac, ndig)
  | String c s' =>
      if Ascii.eqb c "."%char then
        if seen_dot then None else dec_go s' true mant frac ndig
      else
        d ← digit c;
        dec_go s' seen_dot (10 * mant + d) (if seen_dot then S frac else frac) (S ndig)
  end.

Definition unsigned_dec (s : string) : option float :=
  '(mant, frac, ndig) ← dec_go s false 0 O O;
  if decide (ndig <= 15)%nat
  then Some (PrimFloat.div (float_of_Z mant) (float_of_Z (10 ^ Z.of_nat frac)))
  else None.

Definition py_float_dec (s : string) : option float :=
  match s with
  | String "-" s' => PrimFloat.opp <$> unsigned_dec s'
  | String "+" s' => unsigned_dec s'
  | _ => unsigned_dec s
  end.

Definition py_int_dec (s : string) : option Z :=
  let unsigned s := '(mant, frac, _) ← dec_go s true 0 O O; Some mant in
  match s with
  | String "-" s' => Z.opp <$> unsigned s'
  | String "+" s' => unsigned s'
  | _ => unsigned s
  end.

(** ** Vocabulary of the statements, and example files *)

(** The trailing token of a line, converted. *)
Definition trailing_number (py_float : string -> option float) (line : string)
    : option float :=
  last (split line) ≫= py_float.

(** A line that carries neither marker of the force table. *)
Definition plain_line (line : string) : Prop :=
  contains pattern_1 line = false /\ contains pattern_2 line = false.

(** A line that does not assign [stop]: it carries the start marker (the
    [if] branch is taken) or lacks the end marker. *)
Definition no_stop_line (line : string) : Prop :=
  contains pattern_1 line = true \/ contains pattern_2 line = false.

Definition energy_artifact : list string :=
  [" SCF run converged";
   " ENERGY| Total FORCE_EVAL ( QS ) energy [a.u.]:     -17.25";
   " step 2";
   " ENERGY| Total FORCE_EVAL ( QS ) energy [a.u.]:     -17.5";
   " done"].

Definition force_header : list string :=
  ["2";
   " ENERGY| Total FORCE_EVAL ( QS ) energy [a.u.]:     -17.5";
   " ATOMIC FORCES in [a.u.]";
   " # Atom   Kind   Element          X              Y              Z"].

Definition force_rows : list string :=
  ["      1      1      O           3.0     4.0     0.0";
   "      2      2      H           0.0     0.0     1.0"].

(** A complete force table, one cut after the rows, one cut after the
    header. *)
Definition forces_complete : list string :=
  force_header ++ force_rows ++ [" SUM OF ATOMIC FORCES    3.0  4.0  1.0  5.1"].
Definition forces_cut_after_rows : list string := force_header ++ force_rows.
Definition forces_cut_after_header : list string := force_header.



(** The sample of index [i] of [np_linspace_int], before it is rounded. *)
Definition linspace_sample (start stop : Q) (num i : nat) : Q :=
  if decide (S i = num) then stop
  else (start + inject_Z (Z.of_nat i)
                * ((stop - start) / inject_Z (Z.of_nat num - 1)))%Q.


(** The optimizer that the constructor builds from its defaults, for a
    template with an empty MGRID section. *)
Definition default_optimizer : IntegrationGridOptimizer.optimizer :=
  IntegrationGridOptimizer.Optimizer
    IntegrationGridOptimizer.default_start IntegrationGridOptimizer.default_stop
    0x1.0624dd2f1a9fcp-9%float "./" "optimization" ∅ ∅ ∅ ∅ [].

(** The sample that a table of samples gives for candidate [c]; the program
    ends for a candidate that is not in the table. *)
Definition table_lookup (table : list (Z * (float * float))) (c : Z)
    : result (float * float) :=
  of_option (snd <$> List.find (fun row => Z.eqb row.1 c) table) (SystemExit 1).

(** An engine given by a table: the sample of the candidate bound to
    [param]. *)
Definition table_fetch (param : string) (table : list (Z * (float * float)))
    (mg : gmap string value) : result (float * float) :=
  match mg !! param with
  | Some (VInt c) => table_lookup table c
  | _ => Raise (SystemExit 1)
  end.

(** An engine that returns the same sample for every setting. *)
Definition constant_fetch (e f : float) (mg : gmap string value)
    : result (float * float) := Ok (e, f).

Definition example_candidates : list Z := [100; 200; 300; 400].

(** The force rises by 0.5 twice, then by less than the tolerance 0.002. *)
Definition converging_samples : list (Z * (float * float)) :=
  [(100, ((-10)%float, 1%float)); (200, ((-11)%float, 1.5%float));
   (300, ((-11.5)%float, 1.5009765625%float));
   (400, ((-11.75)%float, 1.50146484375%float))].

(** The force rises by 0.5 at every candidate. *)
Definition rising_samples : list (Z * (float * float)) :=
  [(100, ((-10)%float, 1%float)); (200, ((-11)%float, 1.5%float));
   (300, ((-11.5)%float, 2%float)); (400, ((-11.75)%float, 2.5%float))].

(** An optimizer about to sweep [example_candidates] for the cutoff, with the
    histories [ea] and [fa] of the cutoff. *)
Definition sweep_state (ea fa : list float) : IntegrationGridOptimizer.optimizer :=
  IntegrationGridOptimizer.Optimizer
    IntegrationGridOptimizer.default_start IntegrationGridOptimizer.default_stop
    0x1.0624dd2f1a9fcp-9%float "./" "optimization" ∅
    {["Cutoff" := example_candidates]} {["Cutoff" := fa]} {["Cutoff" := ea]} [].

(** The default optimizer once the caller has put a first sample into the
    histories of the three parameters. *)
Definition seeded_optimizer : IntegrationGridOptimizer.optimizer :=
  IntegrationGridOptimizer.set_energy_array
    (fun _ => <["Cutoff" := [0%float]]>
                (<["Rel_cutoff" := [0%float]]> (<["Ngrids" := [0%float]]> ∅)))
    (IntegrationGridOptimizer.set_force_array
       (fun _ => <["Cutoff" := [1%float]]>
                   (<["Rel_cutoff" := [1%float]]> (<["Ngrids" := [1%float]]> ∅)))
       default_optimizer).

(** A [CutoffOptimizer] from 100 to 400 whose calculator was built. *)
Definition cutoff_state : CutoffOptimizer.optimizer :=
  CutoffOptimizer.Optimizer 100 400 0x1.0624dd2f1a9fcp-9%float
    (Some (<["max_scf" := VInt 1]> ∅)) None [] [] [].

(** *** Vocabulary of the statements about every outcome of a sweep *)

(** The state once the setting of candidate [c] is written and the run is
    logged, before the sample is read. *)
Definition dispatched (p : string) (c : Z)
    (self : IntegrationGridOptimizer.optimizer)
    : IntegrationGridOptimizer.optimizer :=
  IntegrationGridOptimizer.set_runs
    (fun l => l ++ [<[p := VInt c]> (IntegrationGridOptimizer.m_grid self)])
    (IntegrationGridOptimizer.set_m_grid <[p := VInt c]> self).

(** The attributes that a sweep only reads are the same in [self] and
    [self']. *)
Definition same_settings (self self' : IntegrationGridOptimizer.optimizer) : Prop :=
  IntegrationGridOptimizer.start self' = IntegrationGridOptimizer.start self /\
  IntegrationGridOptimizer.stop self' = IntegrationGridOptimizer.stop self /\
  IntegrationGridOptimizer.tolerance self' = IntegrationGridOptimizer.tolerance self /\
  IntegrationGridOptimizer.cwd self' = IntegrationGridOptimizer.cwd self /\
  IntegrationGridOptimizer.project_name self'
  = IntegrationGridOptimizer.project_name self /\
  IntegrationGridOptimizer.loop_range self'
  = IntegrationGridOptimizer.loop_range self.

(** The state that [setup] reaches when [start] and [stop] bind the three
    parameters: the three ranges are stored and the relative cutoff and the
    grid count are set to [start] rounded down. *)
Definition after_setup (ac bc ar br an bn : Q)
    (self : IntegrationGridOptimizer.optimizer)
    : IntegrationGridOptimizer.optimizer :=
  IntegrationGridOptimizer.set_m_grid
    (fun mg => <["Ngrids" := VInt (Qfloor an)]>
                 (<["Rel_cutoff" := VInt (Qfloor ar)]> mg))
    (IntegrationGridOptimizer.set_loop_range
       (fun lr => <["Ngrids" := np_linspace_int an bn 4]>
                    (<["Rel_cutoff" := np_linspace_int ar br 10]>
                       (<["Cutoff" := np_linspace_int ac bc 10]> lr))) self).

(** A marker line on which CP2K printed stars instead of the energy. *)
Definition starred_energy_line : string :=
  " ENERGY| Total FORCE_EVAL ( QS ) energy [a.u.]:     ********".

(** * Properties *)

(** ** Differences and the convergence check *)

Lemma np_diff_snoc (a : list float) (x y : float) :
  np_diff (a ++ [x; y]) = np_diff (a ++ [x]) ++ [PrimFloat.sub y x].
Proof.
  induction a as [|h [|h' t] IH]; [reflexivity | reflexivity|].
  change (np_diff ((h :: h' :: t) ++ [x; y]))
    with (PrimFloat.sub h' h :: np_diff ((h' :: t) ++ [x; y])).
  rewrite IH. reflexivity.
Qed.

Lemma two_last {A} (l : list A) :
  (2 <= length l)%nat -> exists pre x y, l = pre ++ [x; y].
Proof.
  intros H. destruct (rev l) as [|y [|x r]] eqn:E.
  - apply (f_equal length) in E. rewrite length_rev in E. simpl in E. lia.
  - apply (f_equal length) in E. rewrite length_rev in E. simpl in E. lia.
  - exists (rev r), x, y. rewrite <- (rev_involutive l), E. simpl.
    rewrite <- app_assoc. reflexivity.
Qed.

Lemma last_np_diff (a : list float) (x y : float) :
  last (np_diff (a ++ [x; y])) = Some (PrimFloat.sub y x).
Proof. rewrite np_diff_snoc. apply last_snoc. Qed.

(** With fewer than two energies the check returns [0], the value that the
    callers take as the order to stop. *)
Lemma check_progress_short (energy_array force_array : list float) (tolerance : float) :
  (length energy_array < 2)%nat ->
  check_progress energy_array force_array tolerance = Ok 0.
Proof.
  intros H. unfold check_progress. destruct (decide _); [reflexivity | lia].
Qed.

Lemma check_progress_two (pe pf : list float) (e1 e2 f1 f2 tolerance : float) :
  check_progress (pe ++ [e1; e2]) (pf ++ [f1; f2]) tolerance
  = Ok (if truthy (PrimFloat.sub e2 e1)
           && PrimFloat.ltb (PrimFloat.sub f2 f1) tolerance
        then 0 else 1).
Proof.
  unfold check_progress. destruct (decide _) as [Hlt|_].
  { rewrite length_app in Hlt. simpl in Hlt. lia. }
  unfold index_neg1. rewrite !last_np_diff. simpl.
  destruct (truthy _); simpl; [|reflexivity].
  destruct (PrimFloat.ltb _ _); reflexivity.
Qed.

(** C3. On a history of at least two samples, [_check_progress] returns [0]
    (converged) exactly when the last difference of the energies is non-zero
    and the last difference of the forces is below the tolerance, and [1]
    otherwise; when all energy differences are zero it returns [1], whatever
    the forces. *)
Theorem check_progress_converged_iff
    (energy_array force_array : list float) (tolerance : float) :
  (2 <= length energy_array)%nat ->
  length force_array = length energy_array ->
  exists en fr,
    last (np_diff energy_array) = Some en /\
    last (np_diff force_array) = Some fr /\
    check_progress energy_array force_array tolerance
      = Ok (if truthy en && PrimFloat.ltb fr tolerance then 0 else 1) /\
    (Forall (fun d => truthy d = false) (np_diff energy_array) ->
     check_progress energy_array force_array tolerance = Ok 1).
Proof.
  intros He Hf.
  destruct (two_last energy_array He) as (pe & e1 & e2 & ->).
  destruct (two_last force_array ltac:(lia)) as (pf & f1 & f2 & ->).
  exists (PrimFloat.sub e2 e1), (PrimFloat.sub f2 f1).
  repeat split; try apply last_np_diff; try apply check_progress_two.
  intros Hall. rewrite check_progress_two.
  rewrite np_diff_snoc in Hall. apply Forall_app in Hall as [_ Hall].
  apply Forall_inv in Hall. rewrite Hall. reflexivity.
Qed.

Lemma check_progress_converged_iff_witness :
  exists en fr,
    last (np_diff [(-10)%float; (-11)%float]) = Some en /\
    last (np_diff [0.5%float; 0.25%float]) = Some fr /\
    check_progress [(-10)%float; (-11)%float] [0.5%float; 0.25%float] 0.125%float
      = Ok (if truthy en && PrimFloat.ltb fr 0.125%float then 0 else 1) /\
    (Forall (fun d => truthy d = false) (np_diff [(-10)%float; (-11)%float]) ->
     check_progress [(-10)%float; (-11)%float] [0.5%float; 0.25%float] 0.125%float = Ok 1).
Proof.
  apply (check_progress_converged_iff
           [(-10)%float; (-11)%float] [0.5%float; 0.25%float]);
    simpl; lia.
Defined.

(** Equal energies stop nothing, however small the change of the force. *)
Example check_progress_equal_energies :
  check_progress [(-10)%float; (-10)%float; (-10)%float]
                 [0.5%float; 0.5%float; 0.5%float] 0.125%float = Ok 1.
Proof. reflexivity. Qed.

(** ** Suffixes of file names *)

Lemma ends_with_cons (suf : string) (c : ascii) (s : string) :
  ends_with suf (String c s) = String.eqb (String c s) suf || ends_with suf s.
Proof. reflexivity. Qed.

Lemma ends_with_app (suf p s : string) :
  ends_with suf s = true -> ends_with suf (p +:+ s) = true.
Proof.
  intros H. induction p as [|c p IH]; [exact H|].
  change (String c p +:+ s) with (String c (p +:+ s)).
  rewrite ends_with_cons, IH. apply orb_true_r.
Qed.

Lemma length_string_app (p s : string) :
  String.length (p +:+ s) = (String.length p + String.length s)%nat.
Proof.
  induction p as [|c p IH]; [reflexivity|].
  change (String c p +:+ s) with (String c (p +:+ s)). simpl. lia.
Qed.

Lemma out_is_not_xyz (p : string) : ends_with ".xyz" (p +:+ ".out") = false.
Proof.
  induction p as [|c p IH]; [reflexivity|].
  change (String c p +:+ ".out") with (String c (p +:+ ".out")).
  rewrite ends_with_cons, IH, orb_false_r.
  apply String.eqb_neq. intros E.
  apply (f_equal String.length) in E. simpl in E.
  rewrite length_string_app in E. simpl in E. lia.
Qed.

Lemma path_join_ends_with (suf d name : string) :
  ends_with suf name = true -> ends_with suf (path_join d name) = true.
Proof.
  intros H. unfold path_join. destruct (ends_with "/" d).
  - by apply ends_with_app.
  - apply ends_with_app. by apply ends_with_app.
Qed.

Lemma glob_xyz_ends_with (listdir : string -> list string) (cwd f : string) :
  f ∈ glob_xyz listdir cwd -> ends_with ".xyz" f = true.
Proof.
  unfold glob_xyz. intros H.
  apply list_elem_of_fmap in H as (name & -> & H).
  apply list_elem_of_In, filter_In in H as [_ H].
  apply andb_true_iff in H as [_ H].
  by apply path_join_ends_with.
Qed.

Lemma force_file_not_found (listdir : string -> list string)
    (cwd project_name : string) :
  (project_name +:+ ".out") ∉ glob_xyz listdir cwd.
Proof.
  intros H%glob_xyz_ends_with. rewrite out_is_not_xyz in H. discriminate.
Qed.

Lemma get_force_file_exits (listdir : string -> list string)
    (cwd project_name : string) :
  _get_force_file listdir cwd project_name = Raise (SystemExit 1).
Proof.
  unfold _get_force_file. rewrite bool_decide_eq_true_2; [reflexivity|].
  apply force_file_not_found.
Qed.

Lemma fetch_properties_exits
    (py_float : string -> option float) (py_int : string -> option Z)
    (listdir : string -> list string)
    (read_file : string -> option (list string)) (cwd project_name : string) :
  _fetch_properties py_float py_int listdir read_file cwd project_name
  = Raise (SystemExit 1).
Proof. unfold _fetch_properties. by rewrite get_force_file_exits. Qed.

(** C10. Whatever the directory holds, [_get_force_file] ends the program:
    every path collected by the search ends in [.xyz], the name tested for
    membership ends in [.out]. So [_fetch_properties] never reads a file. *)
Theorem get_force_file_always_exits
    (py_float : string -> option float) (py_int : string -> option Z)
    (listdir : string -> list string)
    (read_file : string -> option (list string)) (cwd project_name : string) :
  ((project_name +:+ ".out") ∉ glob_xyz listdir cwd) /\
  _get_force_file listdir cwd project_name = Raise (SystemExit 1) /\
  _fetch_properties py_float py_int listdir read_file cwd project_name
  = Raise (SystemExit 1).
Proof.
  split; [apply force_file_not_found|].
  split; [apply get_force_file_exits | apply fetch_properties_exits].
Qed.

(** A directory that holds both [optimization.out] and [optimization.xyz]:
    the search returns only the latter, with its directory. *)
Example glob_xyz_example :
  glob_xyz (fun _ => ["optimization.out"; "optimization.xyz"; ".hidden.xyz"]) "./"
  = ["./optimization.xyz"].
Proof. reflexivity. Qed.

(** ** Reading the energy *)

Section ReadEnergy.
Variable py_float : string -> option float.

Lemma read_energy_loop_spec (energy : option float) (f_object : list string) :
  Forall (fun line => contains "Total FORCE_EVAL" line = true ->
                      is_Some (trailing_number py_float line)) f_object ->
  read_energy_loop py_float energy f_object
  = Ok (match last (List.filter (contains "Total FORCE_EVAL") f_object) with
        | None => energy
        | Some line => trailing_number py_float line
        end).
Proof.
  intros H. revert energy.
  induction H as [|line rest Hline _ IH]; intros energy; [reflexivity|].
  simpl. destruct (contains "Total FORCE_EVAL" line) eqn:E.
  - specialize (Hline eq_refl). unfold trailing_number in *.
    unfold index_neg1.
    destruct (last (split line)) as [tok|] eqn:Et; [|by destruct Hline].
    simpl in *. destruct (py_float tok) as [e|] eqn:Ep; [|by destruct Hline].
    simpl. rewrite IH, last_cons.
    destruct (last (List.filter _ rest)); [reflexivity|].
    rewrite Et. simpl. by rewrite Ep.
  - apply IH.
Qed.


(** Without a marker line the program ends, whatever the file holds. *)
Lemma read_energy_missing (f_object : list string) :
  Forall (fun line => contains "Total FORCE_EVAL" line = false) f_object ->
  _read_energy py_float f_object = Raise (SystemExit 1).
Proof.
  intros H.
  assert (Hf : List.filter (contains "Total FORCE_EVAL") f_object = []).
  { induction H as [|l r Hl _ IH]; [reflexivity|]. simpl. by rewrite Hl. }
  unfold _read_energy. rewrite read_energy_loop_spec.
  - by rewrite Hf.
  - eapply Forall_impl; [exact H|]. intros l Hl Hl'. congruence.
Qed.

End ReadEnergy.


Example read_energy_example :
  _read_energy py_float_dec energy_artifact = Ok (-17.5)%float.
Proof. vm_compute. reflexivity. Qed.

(** ** Reading the forces *)

Ltac zcases :=
  repeat match goal with
         | |- context [Z.ltb ?a ?b] => destruct (Z.ltb_spec a b); try lia
         | |- context [Z.leb ?a ?b] => destruct (Z.leb_spec a b); try lia
         end.

Section ReadForces.
Variable py_float : string -> option float.

Lemma find_markers_plain (i : Z) (f_object : list string) (start stop : option Z) :
  Forall plain_line f_object ->
  find_markers i f_object start stop = (start, stop).
Proof.
  intros H. revert i. induction H as [|l r [H1 H2] _ IH]; intros i; [reflexivity|].
  simpl. rewrite H1, H2. apply IH.
Qed.

Lemma find_markers_app (i : Z) (l1 l2 : list string) (start stop : option Z) :
  find_markers i (l1 ++ l2) start stop
  = let '(s, e) := find_markers i l1 start stop in
    find_markers (i + Z.of_nat (length l1)) l2 s e.
Proof.
  revert i start stop. induction l1 as [|l r IH]; intros i start stop.
  - simpl. by rewrite Z.add_0_r.
  - cbn [app find_markers length].
    replace (i + Z.of_nat (S (length r))) with (i + 1 + Z.of_nat (length r)) by lia.
    destruct (contains pattern_1 l); [apply IH|].
    destruct (contains pattern_2 l); apply IH.
Qed.

Lemma find_markers_no_stop (i : Z) (f_object : list string) (start : option Z) :
  Forall no_stop_line f_object ->
  exists s, find_markers i f_object start None = (s, None).
Proof.
  intros H. revert i start. induction H as [|l r Hl _ IH]; intros i start.
  - by exists start.
  - simpl. destruct (contains pattern_1 l) eqn:E1; [apply IH|].
    destruct Hl as [Hl|Hl]; [congruence|]. rewrite Hl. apply IH.
Qed.

(** The lines before [start] are passed over. *)
Lemma sum_rows_skip (i s : Z) (l1 l2 : list string) (stop : option Z)
    (force : float) (is_np : bool) :
  i + Z.of_nat (length l1) <= s ->
  sum_rows py_float i (l1 ++ l2) (Some s) stop force is_np
  = sum_rows py_float (i + Z.of_nat (length l1)) l2 (Some s) stop force is_np.
Proof.
  revert i. induction l1 as [|l r IH]; intros i H.
  - simpl. by rewrite Z.add_0_r.
  - cbn [app sum_rows length] in *. simpl. zcases.
    rewrite IH by lia. f_equal. lia.
Qed.

(** The lines from [start] to [stop] add their norms. *)
Lemma sum_rows_rows (i s e : Z) (rows rest : list string) (vs : list (list float))
    (force : float) (is_np : bool) :
  s <= i -> i + Z.of_nat (length rows) - 1 <= e ->
  mapM (row_vector py_float) rows = Ok vs ->
  sum_rows py_float i (rows ++ rest) (Some s) (Some e) force is_np
  = sum_rows py_float (i + Z.of_nat (length rows)) rest (Some s) (Some e)
      (foldl (fun acc v => PrimFloat.add acc (np_linalg_norm v)) force vs)
      (if rows is [] then is_np else true).
Proof.
  revert i vs force is_np.
  induction rows as [|l r IH]; intros i vs force is_np Hs He Hm.
  - simpl in *. injection Hm as <-. simpl. by rewrite Z.add_0_r.
  - cbn [app sum_rows length] in *. simpl. zcases. simpl.
    simpl in Hm. destruct (row_vector py_float l) as [v|]; [|discriminate].
    simpl in *.
    destruct (mapM (row_vector py_float) r) as [vs'|] eqn:Er; [|discriminate].
    simpl in Hm. injection Hm as <-.
    rewrite (IH _ vs') by (try lia; reflexivity). simpl.
    replace (i + 1 + Z.of_nat (length r))
      with (i + Z.pos (Pos.of_succ_nat (length r))) by lia.
    by destruct r.
Qed.

(** A file with a start marker and no line that assigns [stop]: when lines
    follow the last start marker, the read of the unbound local [stop]
    raises [UnboundLocalError]; when the start marker is the last line, no
    line reaches that read, and [0.0/n_atoms] is returned. *)
Lemma read_forces_no_stop_marker (pre post : list string) (sl : string) (n_atoms : Z) :
  Forall no_stop_line pre ->
  contains pattern_1 sl = true ->
  Forall plain_line post ->
  _read_forces py_float (pre ++ sl :: post) n_atoms
  = match post with
    | [] => if n_atoms =? 0 then Raise ZeroDivisionError
            else Ok (PrimFloat.div 0 (float_of_Z n_atoms))
    | _ :: _ => Raise (UnboundLocalError "stop")
    end.
Proof.
  intros Hpre Hsl Hpost. unfold _read_forces.
  rewrite find_markers_app.
  destruct (find_markers_no_stop 0 pre None Hpre) as [s ->].
  cbn [find_markers]. rewrite Hsl, (find_markers_plain _ _ _ _ Hpost).
  replace (pre ++ sl :: post) with ((pre ++ [sl]) ++ post)
    by by rewrite <- app_assoc.
  rewrite sum_rows_skip by (rewrite length_app; simpl; lia).
  destruct post as [|row post].
  - simpl. by destruct (n_atoms =? 0).
  - cbn [sum_rows]. simpl. rewrite length_app. simpl. zcases. reflexivity.
Qed.

(** A file with one force table: the sum of the norms of the rows strictly
    between the markers, over [n_atoms]. *)
Lemma read_forces_well_formed (pre rows post : list string) (sl el : string)
    (vs : list (list float)) (n_atoms : Z) :
  contains pattern_1 sl = true ->
  Forall plain_line rows ->
  contains pattern_1 el = false -> contains pattern_2 el = true ->
  Forall plain_line post ->
  mapM (row_vector py_float) rows = Ok vs ->
  _read_forces py_float (pre ++ sl :: rows ++ el :: post) n_atoms
  = if (if rows is [] then true else false) && (n_atoms =? 0)
    then Raise ZeroDivisionError
    else Ok (PrimFloat.div
               (foldl (fun acc v => PrimFloat.add acc (np_linalg_norm v)) 0%float vs)
               (float_of_Z n_atoms)).
Proof.
  intros Hsl Hrows He1 He2 Hpost Hvs. unfold _read_forces.
  rewrite find_markers_app.
  destruct (find_markers 0 pre None None) as [s0 e0].
  cbn [find_markers].
  rewrite Hsl, find_markers_app, (find_markers_plain _ _ _ _ Hrows).
  cbn [find_markers]. rewrite He1, He2, (find_markers_plain _ _ _ _ Hpost).
  replace (pre ++ sl :: rows ++ el :: post)
    with ((pre ++ [sl]) ++ rows ++ el :: post) by by rewrite <- app_assoc.
  rewrite sum_rows_skip by (rewrite length_app; simpl; lia).
  rewrite (sum_rows_rows _ _ _ _ _ vs)
    by (try rewrite length_app; simpl; try lia; done).
  cbn [sum_rows]. simpl. rewrite length_app. simpl. zcases.
  simpl. destruct rows; simpl; [|reflexivity].
  by destruct (n_atoms =? 0).
Qed.

End ReadForces.

Lemma read_forces_no_stop_marker_witness :
  _read_forces py_float_dec forces_cut_after_rows 2
  = Raise (UnboundLocalError "stop").
Proof.
  apply (read_forces_no_stop_marker py_float_dec
           ["2"; " ENERGY| Total FORCE_EVAL ( QS ) energy [a.u.]:     -17.5";
            " ATOMIC FORCES in [a.u.]"]
           force_rows
           " # Atom   Kind   Element          X              Y              Z" 2).
  - repeat constructor; right; reflexivity.
  - reflexivity.
  - repeat constructor.
Defined.

Lemma read_forces_well_formed_witness :
  _read_forces py_float_dec forces_complete 2
  = Ok (PrimFloat.div
          (foldl (fun acc v => PrimFloat.add acc (np_linalg_norm v)) 0%float
                 [[3%float; 4%float; 0%float]; [0%float; 0%float; 1%float]])
          (float_of_Z 2)).
Proof.
  apply (read_forces_well_formed py_float_dec
           ["2"; " ENERGY| Total FORCE_EVAL ( QS ) energy [a.u.]:     -17.5";
            " ATOMIC FORCES in [a.u.]"]
           force_rows []
           " # Atom   Kind   Element          X              Y              Z"
           " SUM OF ATOMIC FORCES    3.0  4.0  1.0  5.1"
           [[3%float; 4%float; 0%float]; [0%float; 0%float; 1%float]] 2).
  - reflexivity.
  - repeat constructor.
  - reflexivity.
  - reflexivity.
  - constructor.
  - vm_compute. reflexivity.
Defined.

(** C7. A force table that is cut after its header, with no end marker,
    makes [_read_forces] return [0.0] without any error; cut after the rows
    it fails on the unbound local [stop]. The complete table gives the mean
    of the norms [5] and [1]. *)
Theorem read_forces_without_end_marker :
  _read_forces py_float_dec forces_cut_after_header 2 = Ok 0%float /\
  _read_forces py_float_dec forces_cut_after_rows 2
  = Raise (UnboundLocalError "stop") /\
  _read_forces py_float_dec forces_complete 2 = Ok 3%float.
Proof. vm_compute. repeat split; reflexivity. Qed.

(** ** The candidates of a range *)

Lemma np_linspace_int_lookup (start stop : Q) (num i : nat) :
  (2 <= num)%nat -> (i < num)%nat ->
  np_linspace_int start stop num !! i
  = Some (Qfloor (linspace_sample start stop num i)).
Proof.
  intros Hn Hi. unfold np_linspace_int, linspace_sample.
  destruct num as [|[|n]]; [lia | lia |].
  rewrite list_lookup_fmap.
  destruct (decide (S i = S (S n))) as [E|E].
  - assert (i = S n) as -> by lia.
    rewrite lookup_app_r; rewrite length_take, length_map, length_seq; [|lia].
    replace (S n - S n `min` S (S n))%nat with 0%nat by lia. reflexivity.
  - rewrite lookup_app_l by (rewrite length_take, length_map, length_seq; lia).
    rewrite lookup_take_lt by lia. rewrite list_lookup_fmap.
    rewrite lookup_seq_lt by lia. reflexivity.
Qed.


Lemma np_linspace_int_length (start stop : Q) (n : nat) :
  length (np_linspace_int start stop n) = n.
Proof.
  unfold np_linspace_int. destruct n as [|[|m]].
  - reflexivity.
  - reflexivity.
  - rewrite length_map, length_app, length_take, length_map, length_seq.
    simpl. lia.
Qed.


(** On the ranges of the constructors' defaults the binary64 computation of
    numpy and the exact one give the same candidates. *)
Example linspace_f64_defaults :
  np_linspace_f64 100 1500 10 = Some <$> np_linspace_int 100 1500 10 /\
  np_linspace_f64 60 120 10 = Some <$> np_linspace_int 60 120 10 /\
  np_linspace_f64 5 8 4 = Some <$> np_linspace_int 5 8 4 /\
  np_linspace_f64 100 1600 10 = Some <$> np_linspace_int 100 1600 10.
Proof. vm_compute. repeat split; reflexivity. Qed.

Example linspace_cutoff_default :
  np_linspace_int 100 1500 10
  = [100; 255; 411; 566; 722; 877; 1033; 1188; 1344; 1500].
Proof. vm_compute. reflexivity. Qed.

Module GridFacts.
Import IntegrationGridOptimizer.

Example init_defaults :
  __init__ None None (Some "template.inp") ∅ 0x1.0624dd2f1a9fcp-9%float
           "./" "optimization" = Ok default_optimizer.
Proof. reflexivity. Qed.

Lemma get_static_range_eq (self : optimizer) (ac bc ar br an bn : Q) :
  start self !! "Cutoff" = Some ac -> stop self !! "Cutoff" = Some bc ->
  start self !! "Rel_cutoff" = Some ar -> stop self !! "Rel_cutoff" = Some br ->
  start self !! "Ngrids" = Some an -> stop self !! "Ngrids" = Some bn ->
  _get_static_range self
  = (set_loop_range (fun lr =>
       <["Ngrids" := np_linspace_int an bn 4]>
         (<["Rel_cutoff" := np_linspace_int ar br 10]>
            (<["Cutoff" := np_linspace_int ac bc 10]> lr))) self, Ok tt).
Proof.
  intros H1 H2 H3 H4 H5 H6.
  unfold _get_static_range, mbind, method_bind, get, lift, modify, getitem.
  rewrite H1, H2, H3, H4, H5, H6. reflexivity.
Qed.




Ltac unfold_methods :=
  unfold _perform_loop_operation, _update_property_arrays, _update_property,
    _perform_energy_force_calculation, _check_progress,
    mbind, method_bind, mret, method_ret, modify, get, lift, getitem.

Section Sweep.
Variable fetch : gmap string value -> result (float * float).

(** One iteration whose sample arrives: the setting is written, the run is
    logged and one sample is appended to each history of [p]. *)
Lemma perform_loop_operation_ok (p : string) (c : Z) (self : optimizer)
    (e f : float) (ea fa : list float) :
  fetch (<[p := VInt c]> (m_grid self)) = Ok (e, f) ->
  energy_array self !! p = Some ea ->
  force_array self !! p = Some fa ->
  _perform_loop_operation fetch [(p, VInt c)] self
  = (after_run p c e f ea fa self, Ok tt).
Proof.
  intros Hf He Hfa. unfold_methods.
  simpl. rewrite Hf. simpl. rewrite He. simpl. rewrite Hfa. reflexivity.
Qed.

Lemma check_progress_method (p : string) (self : optimizer) (ea fa : list float) :
  energy_array self !! p = Some ea ->
  force_array self !! p = Some fa ->
  _check_progress p self = (self, check_progress ea fa (tolerance self)).
Proof.
  intros He Hfa. unfold_methods. rewrite He. simpl.
  unfold check_progress. destruct (decide _); [reflexivity|].
  rewrite Hfa. reflexivity.
Qed.

(** One turn of the loop of a stage that checks its own key. *)
Lemma sweep_cons_ok (p : string) (c : Z) (rest : list Z) (self : optimizer)
    (e f : float) (ea fa : list float) :
  fetch (<[p := VInt c]> (m_grid self)) = Ok (e, f) ->
  energy_array self !! p = Some ea ->
  force_array self !! p = Some fa ->
  sweep fetch p p (c :: rest) self
  = let self1 := after_run p c e f ea fa self in
    match check_progress (ea ++ [e]) (fa ++ [f]) (tolerance self) with
    | Raise x => (self1, Raise x)
    | Ok r =>
        if decide (r = 1) then sweep fetch p p rest self1
        else match index_neg2 (ea ++ [e]) with
             | Ok v => (set_m_grid <[p := VFloat v]> self1, Ok Break)
             | Raise x => (self1, Raise x)
             end
    end.
Proof.
  intros Hf He Hfa. cbn [sweep].
  unfold mbind at 1. unfold method_bind at 1.
  rewrite (perform_loop_operation_ok _ _ _ _ _ _ _ Hf He Hfa).
  unfold mbind at 1. unfold method_bind at 1.
  rewrite (check_progress_method p _ (ea ++ [e]) (fa ++ [f]))
    by (simpl; apply lookup_insert_eq).
  simpl. destruct (check_progress _ _ _) as [r|x]; [|reflexivity].
  destruct (decide (r = 1)); [reflexivity|].
  unfold_methods. simpl. rewrite lookup_insert_eq. simpl.
  destruct (index_neg2 _); reflexivity.
Qed.

(** The loop invariant of a sweep that is never told to stop; [mg0] is the
    MGRID section at the start of the stage. *)
Lemma sweep_exhausted_aux (p : string) (mg0 : gmap string value) (cs : list Z) :
  forall (ss : list (float * float)) (self : optimizer) (ea fa : list float),
  (forall c, <[p := VInt c]> (m_grid self) = <[p := VInt c]> mg0) ->
  energy_array self !! p = Some ea ->
  force_array self !! p = Some fa ->
  Forall2 (fun c s => fetch (<[p := VInt c]> mg0) = Ok s) cs ss ->
  (forall k, (1 <= k <= length cs)%nat ->
     check_progress (ea ++ (take k ss).*1) (fa ++ (take k ss).*2) (tolerance self)
     = Ok 1) ->
  exists self',
    sweep fetch p p cs self = (self', Ok Exhausted) /\
    m_grid self' = from_option (fun c => <[p := VInt c]> mg0) (m_grid self) (last cs) /\
    energy_array self' !! p = Some (ea ++ ss.*1) /\
    force_array self' !! p = Some (fa ++ ss.*2) /\
    runs self' = runs self ++ ((fun c => <[p := VInt c]> mg0) <$> cs) /\
    tolerance self' = tolerance self.
Proof.
  induction cs as [|c cs IH]; intros ss self ea fa Hmg He Hfa Hss Hk.
  - apply Forall2_nil_inv_l in Hss as ->. exists self. simpl.
    rewrite !app_nil_r. done.
  - apply Forall2_cons_inv_l in Hss as ([e f] & ss' & Hf & Hss & ->).
    rewrite <- Hmg in Hf.
    rewrite (sweep_cons_ok _ _ _ _ _ _ _ _ Hf He Hfa). cbv zeta.
    pose proof (Hk 1%nat ltac:(simpl; lia)) as H1. simpl in H1. rewrite H1.
    destruct (decide (1 = 1)) as [_|]; [|done].
    destruct (IH ss' (after_run p c e f ea fa self) (ea ++ [e]) (fa ++ [f]))
      as (self' & Hs & Hm & He' & Hf' & Hr & Ht).
    + intros c'. simpl. by rewrite insert_insert_eq.
    + simpl. apply lookup_insert_eq.
    + simpl. apply lookup_insert_eq.
    + exact Hss.
    + intros k Hk'. simpl.
      specialize (Hk (S k) ltac:(simpl; lia)). simpl in Hk.
      by rewrite <- !app_assoc.
    + exists self'. split; [exact Hs|].
      rewrite Hm, He', Hf', Hr, Ht. simpl. rewrite <- !app_assoc. simpl.
      rewrite (Hmg c). repeat split.
      rewrite last_cons. by destruct (last cs).
Qed.

Lemma index_neg2_snoc {A} (l : list A) (x y : A) :
  index_neg2 ((l ++ [x]) ++ [y]) = Ok x.
Proof.
  unfold index_neg2. rewrite !length_app. simpl.
  destruct (decide _); [|lia].
  replace (length l + 1 + 1 - 2)%nat with (length l + 0)%nat by lia.
  rewrite <- app_assoc. rewrite lookup_app_r by lia.
  replace (length l + 0 - length l)%nat with 0%nat by lia. reflexivity.
Qed.

(** A stage started on an empty energy history stops at its first candidate
    and fails on [energy_array[p][-2]]. *)
Lemma sweep_first_candidate (p : string) (c : Z) (rest : list Z)
    (self : optimizer) (e f : float) (fa : list float) :
  fetch (<[p := VInt c]> (m_grid self)) = Ok (e, f) ->
  energy_array self !! p = Some [] ->
  force_array self !! p = Some fa ->
  sweep fetch p p (c :: rest) self
  = (after_run p c e f [] fa self, Raise IndexError).
Proof.
  intros Hf He Hfa. rewrite (sweep_cons_ok _ _ _ _ _ _ _ _ Hf He Hfa).
  reflexivity.
Qed.

(** The stop branch binds [p] to the energy recorded before the last one. *)
Lemma sweep_stop_writes_energy (p : string) (c : Z) (rest : list Z)
    (self : optimizer) (e f : float) (pre : list float) (e0 : float)
    (fa : list float) (r : Z) :
  fetch (<[p := VInt c]> (m_grid self)) = Ok (e, f) ->
  energy_array self !! p = Some (pre ++ [e0]) ->
  force_array self !! p = Some fa ->
  check_progress ((pre ++ [e0]) ++ [e]) (fa ++ [f]) (tolerance self) = Ok r ->
  r <> 1 ->
  sweep fetch p p (c :: rest) self
  = (set_m_grid <[p := VFloat e0]> (after_run p c e f (pre ++ [e0]) fa self),
     Ok Break).
Proof.
  intros Hf He Hfa Hc Hr. rewrite (sweep_cons_ok _ _ _ _ _ _ _ _ Hf He Hfa).
  cbv zeta. rewrite Hc. destruct (decide (r = 1)); [done|].
  by rewrite index_neg2_snoc.
Qed.

(** Without a history under [p] the first sample cannot be appended. *)
Lemma sweep_no_history (p key : string) (c : Z) (rest : list Z)
    (self : optimizer) (s : float * float) :
  fetch (<[p := VInt c]> (m_grid self)) = Ok s ->
  energy_array self !! p = None ->
  sweep fetch p key (c :: rest) self
  = (set_runs (fun l => l ++ [<[p := VInt c]> (m_grid self)])
       (set_m_grid <[p := VInt c]> self), Raise (KeyError p)).
Proof.
  intros Hf He. cbn [sweep]. unfold_methods. simpl. rewrite Hf. destruct s.
  simpl. rewrite He. reflexivity.
Qed.

Lemma sweep_app (p key : string) (cs1 cs2 : list Z) (self self1 : optimizer) :
  sweep fetch p key cs1 self = (self1, Ok Exhausted) ->
  sweep fetch p key (cs1 ++ cs2) self = sweep fetch p key cs2 self1.
Proof.
  revert self. induction cs1 as [|c cs1 IH]; intros self H.
  - simpl in H. by injection H as <-.
  - cbn [app sweep] in *. unfold mbind, method_bind in *.
    destruct (_perform_loop_operation fetch [(p, VInt c)] self) as [s1 [[]|x]];
      [|discriminate].
    destruct (_check_progress key s1) as [s2 [r|x]]; [|discriminate].
    destruct (decide (r = 1)); [by apply IH|].
    unfold get, lift in H.
    destruct (getitem (energy_array s2) p); [|discriminate].
    destruct (index_neg2 a); discriminate.
Qed.


(** Whatever its outcome, an iteration leaves the MGRID section with the
    new setting of [p] and nothing else changed. *)
Lemma perform_loop_operation_m_grid (p : string) (v : value) (self : optimizer) :
  m_grid (_perform_loop_operation fetch [(p, v)] self).1 = <[p := v]> (m_grid self).
Proof.
  unfold_methods. simpl.
  destruct (fetch _) as [[e f]|x]; [|reflexivity]. simpl.
  destruct (energy_array self !! p); [|reflexivity]. simpl.
  destruct (force_array self !! p); reflexivity.
Qed.

Lemma check_progress_state (key : string) (self : optimizer) :
  (_check_progress key self).1 = self.
Proof.
  unfold_methods. destruct (energy_array self !! key); [|reflexivity]. simpl.
  destruct (decide _); [reflexivity|].
  destruct (force_array self !! key); reflexivity.
Qed.

Lemma sweep_only_at (p key : string) (cs : list Z) (self : optimizer) :
  only_at p self (sweep fetch p key cs self).1.
Proof.
  revert self. induction cs as [|c cs IH]; intros self k Hk; [reflexivity|].
  cbn [sweep]. unfold mbind, method_bind.
  pose proof (perform_loop_operation_m_grid p (VInt c) self) as H1.
  destruct (_perform_loop_operation fetch [(p, VInt c)] self) as [s1 [[]|x]];
    simpl in H1; [|simpl; by rewrite H1, lookup_insert_ne].
  pose proof (check_progress_state key s1) as H2.
  destruct (_check_progress key s1) as [s2 [r|x]]; simpl in H2; subst s2;
    [|simpl; by rewrite H1, lookup_insert_ne].
  destruct (decide (r = 1)).
  - rewrite IH by done. by rewrite H1, lookup_insert_ne.
  - unfold get, lift, getitem.
    destruct (energy_array s1 !! p) as [ea|]; simpl;
      [|by rewrite H1, lookup_insert_ne].
    destruct (index_neg2 ea); simpl; [|by rewrite H1, lookup_insert_ne].
    rewrite lookup_insert_ne by done. by rewrite H1, lookup_insert_ne.
Qed.



(** When [fetch] fails, the first candidate of the sweep is the only one
    that is run. *)
Lemma sweep_fetch_fails (p key : string) (c : Z) (rest : list Z)
    (self : optimizer) (x : exn) :
  fetch (<[p := VInt c]> (m_grid self)) = Raise x ->
  sweep fetch p key (c :: rest) self
  = (set_runs (fun l => l ++ [<[p := VInt c]> (m_grid self)])
       (set_m_grid <[p := VInt c]> self), Raise x).
Proof.
  intros Hf. cbn [sweep]. unfold_methods. simpl. by rewrite Hf.
Qed.

Lemma run_optimizer_fetch_fails (self s0 : optimizer) (c : Z) (rest : list Z)
    (x : exn) :
  (forall mg, fetch mg = Raise x) ->
  setup self = (s0, Ok tt) ->
  loop_range s0 !! "Cutoff" = Some (c :: rest) ->
  run_optimizer fetch self
  = (set_runs (fun l => l ++ [<["Cutoff" := VInt c]> (m_grid s0)])
       (set_m_grid <["Cutoff" := VInt c]> s0), Raise x).
Proof.
  intros Hf H0 Hl.
  unfold run_optimizer, setup, _run_cutoff_optimization, run_stage,
    mbind, method_bind in *.
  destruct (_get_static_range self) as [sa [[]|y]]; [|discriminate].
  destruct (_set_defaults_parameters sa) as [sb [[]|y]]; [|discriminate].
  destruct (_build_cell sb) as [sc [[]|y]]; [|discriminate].
  injection H0 as ->. unfold get, lift, getitem. rewrite Hl.
  cbn [of_option]. by rewrite (sweep_fetch_fails _ _ _ _ _ x (Hf _)).
Qed.

(** The stage that stops at candidate [c], after the candidates [cs1] went
    by: its parameter is bound to the energy recorded before that of [c]. *)
Theorem stage_converged (p : string) (self : optimizer) (cs1 rest : list Z) (c : Z)
    (ss1 : list (float * float)) (e f e_prev : float) (ea fa : list float) :
  loop_range self !! p = Some (cs1 ++ c :: rest) ->
  energy_array self !! p = Some ea ->
  force_array self !! p = Some fa ->
  Forall2 (fun c s => fetch (<[p := VInt c]> (m_grid self)) = Ok s) cs1 ss1 ->
  (forall k, (1 <= k <= length cs1)%nat ->
     check_progress (ea ++ (take k ss1).*1) (fa ++ (take k ss1).*2) (tolerance self)
     = Ok 1) ->
  fetch (<[p := VInt c]> (m_grid self)) = Ok (e, f) ->
  last (ea ++ ss1.*1) = Some e_prev ->
  check_progress ((ea ++ ss1.*1) ++ [e]) ((fa ++ ss1.*2) ++ [f]) (tolerance self)
  = Ok 0 ->
  exists self',
    run_stage fetch p p self = (self', Ok Break) /\
    m_grid self' !! p = Some (VFloat e_prev) /\
    length (runs self') = S (length (runs self) + length cs1).
Proof.
  intros Hl He Hfa Hss Hk Hf Hlast Hc.
  destruct (sweep_exhausted_aux p (m_grid self) cs1 ss1 self ea fa)
    as (s1 & Hs & Hm & He' & Hf' & Hr & Ht); try done.
  apply last_Some in Hlast as [pre Hpre].
  assert (Hf1 : fetch (<[p := VInt c]> (m_grid s1)) = Ok (e, f)).
  { rewrite Hm. destruct (last cs1); simpl; [|done]. by rewrite insert_insert_eq. }
  rewrite Hpre in He', Hc. rewrite <- Ht in Hc.
  eexists. split.
  - unfold run_stage, mbind, method_bind, get, lift, getitem.
    rewrite Hl. simpl. rewrite (sweep_app _ _ _ _ _ _ Hs).
    by apply (sweep_stop_writes_energy _ _ _ _ _ _ _ _ _ 0 Hf1 He' Hf' Hc).
  - simpl. rewrite lookup_insert_eq. split; [done|].
    rewrite Hr, !length_app, length_fmap. simpl. lia.
Qed.

End Sweep.

(** *** The stages on concrete runs *)


(** C2. In the sweep of [100, 200, 300, 400] that stops at the third
    candidate, the cutoff is bound to the energy of the second candidate,
    not to the candidate 200; started on empty histories, the same sweep
    fails with [IndexError] after the first candidate. *)
Theorem converged_stage_binds_an_energy :
  let fetch := table_fetch "Cutoff" converging_samples in
  let r := _run_cutoff_optimization fetch (sweep_state [(-9)%float] [0.5%float]) in
  let r0 := _run_cutoff_optimization fetch (sweep_state [] []) in
  r.2 = Ok Break /\
  length (runs r.1) = 3%nat /\
  m_grid r.1 !! "Cutoff" = Some (VFloat (-11)%float) /\
  m_grid r.1 !! "Cutoff" <> Some (VInt 200) /\
  r0.2 = Raise IndexError /\
  length (runs r0.1) = 1%nat /\
  m_grid r0.1 !! "Cutoff" = Some (VInt 100).
Proof. vm_compute. repeat split; (reflexivity || discriminate). Qed.

(** C4. The constructor creates no history: the first sample of the first
    stage cannot be appended, [run_optimizer] fails with [KeyError] after
    one run, even when the engine delivers every sample. *)
Theorem fresh_optimizer_has_no_history :
  let r := run_optimizer (constant_fetch (-1)%float 0.5%float) default_optimizer in
  energy_array default_optimizer = ∅ /\
  force_array default_optimizer = ∅ /\
  r.2 = Raise (KeyError "Cutoff") /\
  length (runs r.1) = 1%nat /\
  energy_array r.1 = ∅.
Proof. vm_compute. repeat split; reflexivity. Qed.



(** The third stage of that run: its check reads the key [nNrids], which no
    history has. *)
Example third_stage_key_error :
  (run_optimizer (constant_fetch (-1)%float 0.5%float) seeded_optimizer).2
  = Raise (KeyError "nNrids").
Proof. vm_compute. reflexivity. Qed.

(** With the file search of the source as [fetch], the run of the default
    optimizer ends the program after the first simulation, whatever files
    the engine writes. *)
Lemma run_optimizer_never_reads
    (py_float : string -> option float) (py_int : string -> option Z)
    (listdir : gmap string value -> string -> list string)
    (read_file : gmap string value -> string -> option (list string)) :
  let fetch := fun mg =>
    _fetch_properties py_float py_int (listdir mg) (read_file mg)
                      (cwd default_optimizer) (project_name default_optimizer) in
  let r := run_optimizer fetch default_optimizer in
  r.2 = Raise (SystemExit 1) /\ length (runs r.1) = 1%nat.
Proof.
  intros fetch r. subst r.
  rewrite (run_optimizer_fetch_fails fetch default_optimizer
             (setup default_optimizer).1 100
             [255; 411; 566; 722; 877; 1033; 1188; 1344; 1500] (SystemExit 1)).
  - split; reflexivity.
  - intros mg. apply fetch_properties_exits.
  - vm_compute. reflexivity.
  - vm_compute. reflexivity.
Qed.

Lemma sweep_first_candidate_witness :
  sweep (table_fetch "Cutoff" rising_samples) "Cutoff" "Cutoff" example_candidates
        (sweep_state [] [])
  = (after_run "Cutoff" 100 (-10)%float 1%float [] [] (sweep_state [] []),
     Raise IndexError).
Proof.
  apply (sweep_first_candidate (table_fetch "Cutoff" rising_samples) "Cutoff"
           100 [200; 300; 400] (sweep_state [] []) (-10)%float 1%float []);
    reflexivity.
Defined.

Lemma stage_converged_witness :
  exists self',
    run_stage (table_fetch "Cutoff" converging_samples) "Cutoff" "Cutoff"
              (sweep_state [(-9)%float] [0.5%float])
    = (self', Ok Break) /\
    m_grid self' !! "Cutoff" = Some (VFloat (-11)%float) /\
    length (runs self')
    = S (length (runs (sweep_state [(-9)%float] [0.5%float]))
         + length [100; 200]).
Proof.
  apply (stage_converged (table_fetch "Cutoff" converging_samples) "Cutoff"
           (sweep_state [(-9)%float] [0.5%float]) [100; 200] [400] 300
           [((-10)%float, 1%float); ((-11)%float, 1.5%float)]
           (-11.5)%float 1.5009765625%float (-11)%float
           [(-9)%float] [0.5%float]);
    try reflexivity.
  - repeat constructor.
  - intros k Hk. simpl in Hk. destruct k as [|[|[|k]]]; try lia; reflexivity.
Defined.

End GridFacts.

Module CutoffFacts.
Import CutoffOptimizer.

Section CutoffSweep.
Variable get_potential_energies : Z -> result float.
Variable get_reduced_forces : Z -> result float.

Lemma cutoff_check_progress_method (self : optimizer) :
  _check_progress self
  = (self, check_progress (energy_array self) (force_array self) (tolerance self)).
Proof. reflexivity. Qed.


(** Started on empty histories, the loop of [run_optimizer] is left after
    its first candidate: one sample is fewer than two, and [_check_progress]
    returns [0]. *)
Lemma cutoff_sweep_first_candidate (self : optimizer) (c : Z) (rest : list Z)
    (calc : gmap string value) (e f : float) :
  calculator self = Some calc ->
  energy_array self = [] ->
  get_potential_energies c = Ok e ->
  get_reduced_forces c = Ok f ->
  exists self',
    sweep get_potential_energies get_reduced_forces (c :: rest) self
    = (self', Ok Break) /\
    runs self' = runs self ++ [c] /\
    energy_array self' = [e].
Proof.
  intros Hc He Hpe Hrf.
  destruct self as [st sp tol cal lr fa ea rs]. simpl in *. subst cal ea.
  eexists. split.
  - cbn [sweep].
    unfold _perform_loop_operation, _run_scf_minimization, _check_progress,
      mbind, method_bind, mret, method_ret, modify, get, lift.
    simpl. rewrite Hpe. simpl. rewrite Hrf. simpl. reflexivity.
  - split; reflexivity.
Qed.

End CutoffSweep.


Lemma cutoff_sweep_first_candidate_witness :
  exists self',
    sweep (fun c => Ok (-10)%float) (fun c => Ok 1%float) example_candidates
          cutoff_state
    = (self', Ok Break) /\
    runs self' = runs cutoff_state ++ [100] /\
    energy_array self' = [(-10)%float].
Proof.
  apply (cutoff_sweep_first_candidate (fun c => Ok (-10)%float)
           (fun c => Ok 1%float) cutoff_state 100 [200; 300; 400]
           (<["max_scf" := VInt 1]> ∅) (-10)%float 1%float);
    reflexivity.
Defined.

End CutoffFacts.

(** C1. A history of one sample makes [_check_progress] return [0], the
    order to stop: whatever the samples, the sweep of either class is left
    after its first candidate. In [IntegrationGridOptimizer] the stop then
    reads [energy_array[...][-2]] of a list of one energy and fails with
    [IndexError]; in [CutoffOptimizer] the loop ends by [break]. The force
    never settles in these runs. *)
Theorem one_sample_stops_the_sweep :
  let tolerance := 0x1.0624dd2f1a9fcp-9%float in
  let r := IntegrationGridOptimizer._run_cutoff_optimization
             (table_fetch "Cutoff" rising_samples) (sweep_state [] []) in
  let energies := fun c => fst <$> table_lookup rising_samples c in
  let forces := fun c => snd <$> table_lookup rising_samples c in
  let r' := CutoffOptimizer.run_optimizer energies forces cutoff_state in
  check_progress [] [] tolerance = Ok 0 /\
  check_progress [(-10)%float] [1%float] tolerance = Ok 0 /\
  r.2 = Raise IndexError /\
  IntegrationGridOptimizer.runs r.1 = [{["Cutoff" := VInt 100]}] /\
  r'.2 = Ok Break /\
  CutoffOptimizer.loop_range r'.1
  = Some [100; 133; 166; 200; 233; 266; 300; 333; 366; 400] /\
  CutoffOptimizer.runs r'.1 = [100].
Proof. vm_compute. repeat split; reflexivity. Qed.

(** ** Every outcome of a sweep *)

Module GridSweepFacts.
Import IntegrationGridOptimizer.

Section AllOutcomes.
Variable fetch : gmap string value -> result (float * float).

(** The four ways in which one turn of the loop can go: the sample is not
    delivered; the energy history is missing; the force history is missing;
    or the sample is recorded and the check decides. *)
Lemma sweep_turn (p key : string) (c : Z) (rest : list Z) (self : optimizer) :
  (exists x,
     fetch (<[p := VInt c]> (m_grid self)) = Raise x /\
     sweep fetch p key (c :: rest) self = (dispatched p c self, Raise x)) \/
  (exists s,
     fetch (<[p := VInt c]> (m_grid self)) = Ok s /\
     energy_array self !! p = None /\
     sweep fetch p key (c :: rest) self
     = (dispatched p c self, Raise (KeyError p))) \/
  (exists e f ea,
     fetch (<[p := VInt c]> (m_grid self)) = Ok (e, f) /\
     energy_array self !! p = Some ea /\
     force_array self !! p = None /\
     sweep fetch p key (c :: rest) self
     = (set_energy_array <[p := ea ++ [e]]> (dispatched p c self),
        Raise (KeyError p))) \/
  (exists e f ea fa,
     fetch (<[p := VInt c]> (m_grid self)) = Ok (e, f) /\
     energy_array self !! p = Some ea /\
     force_array self !! p = Some fa /\
     sweep fetch p key (c :: rest) self
     = let s1 := after_run p c e f ea fa self in
       match (_check_progress key s1).2 with
       | Raise x => (s1, Raise x)
       | Ok r =>
           if decide (r = 1) then sweep fetch p key rest s1
           else match index_neg2 (ea ++ [e]) with
                | Ok v => (set_m_grid <[p := VFloat v]> s1, Ok Break)
                | Raise x => (s1, Raise x)
                end
       end).
Proof.
  destruct (fetch (<[p := VInt c]> (m_grid self))) as [[e f]|x] eqn:Hf.
  2:{ left. exists x. split; [done|].
      cbn [sweep]. unfold _perform_loop_operation, _update_property_arrays,
        _update_property, _perform_energy_force_calculation,
        mbind, method_bind, mret, method_ret, modify, get, lift, getitem.
      simpl. by rewrite Hf. }
  right. destruct (energy_array self !! p) as [ea|] eqn:He.
  2:{ left. exists (e, f). repeat split; try done.
      by apply GridFacts.sweep_no_history with (s := (e, f)). }
  right. destruct (force_array self !! p) as [fa|] eqn:Hfa.
  2:{ left. exists e, f, ea. repeat split; try done.
      cbn [sweep]. unfold _perform_loop_operation, _update_property_arrays,
        _update_property, _perform_energy_force_calculation,
        mbind, method_bind, mret, method_ret, modify, get, lift, getitem.
      simpl. rewrite Hf. simpl. rewrite He. simpl. by rewrite Hfa. }
  right. exists e, f, ea, fa. repeat split; try done.
  cbn [sweep]. unfold mbind at 1. unfold method_bind at 1.
  rewrite (GridFacts.perform_loop_operation_ok fetch p c self e f ea fa Hf He Hfa).
  unfold mbind at 1. unfold method_bind at 1. cbv zeta.
  pose proof (GridFacts.check_progress_state key (after_run p c e f ea fa self)) as Hs.
  destruct (_check_progress key (after_run p c e f ea fa self)) as [s2 [r|x]];
    simpl in Hs; subst s2; simpl; [|reflexivity].
  destruct (decide (r = 1)); [reflexivity|].
  unfold _update_property, mbind, method_bind, mret, method_ret, modify, get,
    lift, getitem.
  simpl. rewrite lookup_insert_eq. simpl.
  destruct (index_neg2 (ea ++ [e])); reflexivity.
Qed.


Lemma sweep_runs_aux (p key : string) (mg0 : gmap string value) (cs : list Z) :
  forall self : optimizer,
  (forall c, <[p := VInt c]> (m_grid self) = <[p := VInt c]> mg0) ->
  exists n : nat,
    (n <= length cs)%nat /\
    runs (sweep fetch p key cs self).1
    = runs self ++ ((fun c => <[p := VInt c]> mg0) <$> take n cs) /\
    ((sweep fetch p key cs self).2 = Ok Exhausted -> n = length cs) /\
    (cs <> [] -> n <> 0%nat).
Proof.
  induction cs as [|c rest IH]; intros self Hmg.
  - exists 0%nat. simpl. rewrite app_nil_r. done.
  - assert (H1 : exists n : nat,
        (n <= length (c :: rest))%nat /\
        runs (dispatched p c self)
        = runs self ++ ((fun c => <[p := VInt c]> mg0) <$> take n (c :: rest)) /\
        n <> 0%nat).
    { exists 1%nat. simpl. rewrite (Hmg c). repeat split; lia. }
    destruct (sweep_turn p key c rest self)
      as [(x & _ & ->)|[(s & _ & _ & ->)|[(e & f & ea & _ & _ & _ & ->)
         |(e & f & ea & fa & _ & _ & _ & ->)]]];
      try (destruct H1 as (n & ? & ? & ?); exists n; simpl in *; by repeat split).
    cbv zeta.
    destruct ((_check_progress key (after_run p c e f ea fa self)).2) as [r|x];
      [|destruct H1 as (n & ? & ? & ?); exists n; simpl in *; by repeat split].
    destruct (decide (r = 1)) as [_|_].
    + destruct (IH (after_run p c e f ea fa self)) as (n & Hn & Hr & He & _).
      { intros c'. simpl. by rewrite insert_insert_eq. }
      exists (S n). simpl in *. rewrite Hr, (Hmg c), <- app_assoc.
      split; [lia|]. split; [done|]. split; [intros; f_equal; auto | lia].
    + destruct (index_neg2 (ea ++ [e]));
        destruct H1 as (n & ? & ? & ?); exists n; simpl in *; by repeat split.
Qed.

Lemma sweep_frame (p key : string) (cs : list Z) :
  forall self : optimizer,
  same_settings self (sweep fetch p key cs self).1 /\
  forall k, k <> p ->
    energy_array (sweep fetch p key cs self).1 !! k = energy_array self !! k /\
    force_array (sweep fetch p key cs self).1 !! k = force_array self !! k.
Proof.
  induction cs as [|c rest IH]; intros self; [by repeat split|].
  destruct (sweep_turn p key c rest self)
    as [(x & _ & ->)|[(s & _ & _ & ->)|[(e & f & ea & _ & _ & _ & ->)
       |(e & f & ea & fa & _ & _ & _ & ->)]]];
    try (repeat split; simpl; by rewrite ?lookup_insert_ne).
  cbv zeta.
  destruct ((_check_progress key (after_run p c e f ea fa self)).2) as [r|x];
    [|repeat split; simpl; by rewrite ?lookup_insert_ne].
  destruct (decide (r = 1)) as [_|_].
  - destruct (IH (after_run p c e f ea fa self)) as [Hs Hk].
    split; [exact Hs|]. intros k Hkp. destruct (Hk k Hkp) as [-> ->].
    simpl. by rewrite !lookup_insert_ne.
  - destruct (index_neg2 (ea ++ [e]));
      repeat split; simpl; by rewrite ?lookup_insert_ne.
Qed.


Lemma sweep_samples_aux (p key : string) (mg0 : gmap string value) (cs : list Z) :
  forall (self : optimizer) (ea fa : list float),
  (forall c, <[p := VInt c]> (m_grid self) = <[p := VInt c]> mg0) ->
  energy_array self !! p = Some ea ->
  force_array self !! p = Some fa ->
  exists ss : list (float * float),
    energy_array (sweep fetch p key cs self).1 !! p = Some (ea ++ ss.*1) /\
    force_array (sweep fetch p key cs self).1 !! p = Some (fa ++ ss.*2) /\
    Forall2 (fun c s => fetch (<[p := VInt c]> mg0) = Ok s) (take (length ss) cs) ss /\
    (length ss <= length cs)%nat.
Proof.
  induction cs as [|c rest IH]; intros self ea fa Hmg He Hfa.
  - exists []. simpl. rewrite !app_nil_r. repeat split; done || constructor.
  - destruct (sweep_turn p key c rest self)
      as [(x & _ & ->)|[(s & _ & He' & _)|[(e & f & ea' & _ & _ & Hfa' & _)
         |(e & f & ea' & fa' & Hf & He' & Hfa' & ->)]]]; try congruence.
    { exists []. unfold dispatched. simpl. rewrite !app_nil_r.
      repeat split; try done; try constructor; simpl; lia. }
    assert (ea' = ea) as -> by congruence. assert (fa' = fa) as -> by congruence.
    rewrite Hmg in Hf.
    assert (H1 : exists ss : list (float * float),
        energy_array (after_run p c e f ea fa self) !! p = Some (ea ++ ss.*1) /\
        force_array (after_run p c e f ea fa self) !! p = Some (fa ++ ss.*2) /\
        Forall2 (fun c s => fetch (<[p := VInt c]> mg0) = Ok s)
                (take (length ss) (c :: rest)) ss /\
        (length ss <= length (c :: rest))%nat).
    { exists [(e, f)]. simpl. rewrite !lookup_insert_eq.
      repeat split; try done; [by repeat constructor | lia]. }
    cbv zeta.
    destruct ((_check_progress key (after_run p c e f ea fa self)).2) as [r|x];
      [|exact H1].
    destruct (decide (r = 1)) as [_|_].
    + destruct (IH (after_run p c e f ea fa self) (ea ++ [e]) (fa ++ [f]))
        as (ss & Hse & Hsf & Hss & Hl).
      { intros c'. simpl. by rewrite insert_insert_eq. }
      { simpl. apply lookup_insert_eq. }
      { simpl. apply lookup_insert_eq. }
      exists ((e, f) :: ss). simpl. rewrite Hse, Hsf, <- !app_assoc.
      repeat split; try done; [by constructor | lia].
    + destruct (index_neg2 (ea ++ [e])); exact H1.
Qed.

Lemma sweep_binding_aux (p key : string) (mg0 : gmap string value) (cs : list Z) :
  forall self : optimizer,
  (forall c, <[p := VInt c]> (m_grid self) = <[p := VInt c]> mg0) ->
  match (sweep fetch p key cs self).2 with
  | Ok Exhausted =>
      m_grid (sweep fetch p key cs self).1
      = from_option (fun c => <[p := VInt c]> mg0) (m_grid self) (last cs)
  | Ok Break =>
      exists ea v,
        energy_array (sweep fetch p key cs self).1 !! p = Some ea /\
        index_neg2 ea = Ok v /\
        m_grid (sweep fetch p key cs self).1 !! p = Some (VFloat v)
  | Raise _ =>
      exists c, c ∈ cs /\
        m_grid (sweep fetch p key cs self).1 = <[p := VInt c]> mg0
  end.
Proof.
  induction cs as [|c rest IH]; intros self Hmg; [reflexivity|].
  assert (H1 : exists c', c' ∈ c :: rest /\ <[p := VInt c]> (m_grid self) = <[p := VInt c']> mg0).
  { exists c. split; [left | apply Hmg]. }
  destruct (sweep_turn p key c rest self)
    as [(x & _ & ->)|[(s & _ & _ & ->)|[(e & f & ea & _ & _ & _ & ->)
       |(e & f & ea & fa & _ & _ & _ & ->)]]]; try exact H1.
  cbv zeta.
  destruct ((_check_progress key (after_run p c e f ea fa self)).2) as [r|x];
    [|exact H1].
  destruct (decide (r = 1)) as [_|_].
  - specialize (IH (after_run p c e f ea fa self)).
    destruct ((sweep fetch p key rest (after_run p c e f ea fa self)).2)
      as [[|]|x].
    + rewrite IH by (intros c'; simpl; by rewrite insert_insert_eq).
      simpl. rewrite last_cons. destruct (last rest); [done | apply Hmg].
    + apply IH. intros c'. simpl. by rewrite insert_insert_eq.
    + destruct IH as (c' & Hc' & ->);
        [intros c'; simpl; by rewrite insert_insert_eq|].
      exists c'. split; [by right | done].
  - destruct (index_neg2 (ea ++ [e])) as [v|x] eqn:Hv; [|exact H1].
    exists (ea ++ [e]), v. simpl. rewrite !lookup_insert_eq. done.
Qed.


(** Whatever the engine returns and however the sweep ends, the runs of a
    stage are those of the first [n] candidates, in their order, each with
    the settings of the start of the stage and [p] bound to the candidate;
    all candidates were run when the loop was exhausted, and at least one is
    run when there is one. *)
Theorem stage_runs_in_candidate_order (p key : string) (cs : list Z)
    (self : optimizer) :
  exists n : nat,
    (n <= length cs)%nat /\
    runs (sweep fetch p key cs self).1
    = runs self ++ ((fun c => <[p := VInt c]> (m_grid self)) <$> take n cs) /\
    ((sweep fetch p key cs self).2 = Ok Exhausted -> n = length cs) /\
    (cs <> [] -> n <> 0%nat).
Proof. by apply sweep_runs_aux. Qed.

(** Whatever the outcome, the histories of the swept parameter keep their
    earlier samples and gain, in order, the samples that the engine gave
    for the first candidates: one energy and one force per sample. *)
Theorem stage_records_samples_in_order (p key : string) (cs : list Z)
    (self : optimizer) (ea fa : list float) :
  energy_array self !! p = Some ea ->
  force_array self !! p = Some fa ->
  exists ss : list (float * float),
    energy_array (sweep fetch p key cs self).1 !! p = Some (ea ++ ss.*1) /\
    force_array (sweep fetch p key cs self).1 !! p = Some (fa ++ ss.*2) /\
    Forall2 (fun c s => fetch (<[p := VInt c]> (m_grid self)) = Ok s)
            (take (length ss) cs) ss /\
    (length ss <= length cs)%nat.
Proof. intros He Hfa. by apply sweep_samples_aux. Qed.

(** A stage changes nothing but the setting and the histories of its own
    parameter and the log of runs: the ranges, the tolerance, the other
    settings and the other histories are as before, on every outcome. *)
Theorem stage_leaves_the_rest (p key : string) (cs : list Z) (self : optimizer) :
  same_settings self (sweep fetch p key cs self).1 /\
  forall k, k <> p ->
    m_grid (sweep fetch p key cs self).1 !! k = m_grid self !! k /\
    energy_array (sweep fetch p key cs self).1 !! k = energy_array self !! k /\
    force_array (sweep fetch p key cs self).1 !! k = force_array self !! k.
Proof.
  destruct (sweep_frame p key cs self) as [Hs Hk]. split; [exact Hs|].
  intros k Hkp. split; [by apply GridFacts.sweep_only_at | by apply Hk].
Qed.

(** What a stage leaves under its parameter: the last candidate when the
    loop was exhausted; a float, the energy before the last one of the
    history, when the loop was left by [break]; the candidate that was being
    run when it raised. *)
Theorem stage_outcome_binding (p key : string) (cs : list Z) (self : optimizer) :
  match (sweep fetch p key cs self).2 with
  | Ok Exhausted =>
      m_grid (sweep fetch p key cs self).1
      = from_option (fun c => <[p := VInt c]> (m_grid self)) (m_grid self) (last cs)
  | Ok Break =>
      exists ea v,
        energy_array (sweep fetch p key cs self).1 !! p = Some ea /\
        index_neg2 ea = Ok v /\
        m_grid (sweep fetch p key cs self).1 !! p = Some (VFloat v)
  | Raise _ =>
      exists c, c ∈ cs /\
        m_grid (sweep fetch p key cs self).1 = <[p := VInt c]> (m_grid self)
  end.
Proof. by apply sweep_binding_aux. Qed.

(** *** The stages inside [run_optimizer] *)

Lemma run_stage_unfold (p key : string) (self : optimizer) :
  run_stage fetch p key self
  = match loop_range self !! p with
    | Some cs => sweep fetch p key cs self
    | None => (self, Raise (KeyError p))
    end.
Proof.
  unfold run_stage, mbind, method_bind, get, lift, getitem.
  by destruct (loop_range self !! p).
Qed.

Lemma run_stage_frame (p key : string) (self : optimizer) :
  same_settings self (run_stage fetch p key self).1 /\
  forall k, k <> p ->
    energy_array (run_stage fetch p key self).1 !! k = energy_array self !! k.
Proof.
  rewrite run_stage_unfold. destruct (loop_range self !! p) as [cs|].
  - destruct (sweep_frame p key cs self) as [Hs Hk]. split; [exact Hs|].
    intros k Hkp. by apply Hk.
  - by repeat split.
Qed.

Lemma run_stage_runs_bound (p key : string) (self : optimizer) (cs : list Z) :
  loop_range self !! p = Some cs ->
  (length (runs (run_stage fetch p key self).1)
   <= length (runs self) + length cs)%nat.
Proof.
  intros Hl. rewrite run_stage_unfold, Hl.
  destruct (sweep_runs_aux p key (m_grid self) cs self) as (n & Hn & -> & _);
    [done|].
  rewrite length_app, length_fmap, length_take. lia.
Qed.

Lemma run_optimizer_unfold (self : optimizer) :
  run_optimizer fetch self
  = let '(s0, r0) := setup self in
    match r0 with
    | Raise x => (s0, Raise x)
    | Ok _ =>
        let '(s1, r1) := _run_cutoff_optimization fetch s0 in
        match r1 with
        | Raise x => (s1, Raise x)
        | Ok _ =>
            let '(s2, r2) := _run_rel_cutoff_optimization fetch s1 in
            match r2 with
            | Raise x => (s2, Raise x)
            | Ok _ =>
                let '(s3, r3) := _run_n_grids_optimization fetch s2 in
                match r3 with
                | Raise x => (s3, Raise x)
                | Ok _ => (s3, Ok tt)
                end
            end
        end
    end.
Proof.
  unfold run_optimizer, setup, mbind, method_bind.
  destruct (_get_static_range self) as [sa [[]|x]]; [|reflexivity].
  destruct (_set_defaults_parameters sa) as [sb [[]|x]]; [|reflexivity].
  destruct (_build_cell sb) as [sc [[]|x]]; [|reflexivity].
  destruct (_run_cutoff_optimization fetch sc) as [s1 [e1|x]]; [|reflexivity].
  destruct (_run_rel_cutoff_optimization fetch s1) as [s2 [e2|x]]; [|reflexivity].
  destruct (_run_n_grids_optimization fetch s2) as [s3 [e3|x]]; reflexivity.
Qed.

End AllOutcomes.

Lemma stage_records_samples_in_order_witness :
  exists ss : list (float * float),
    energy_array
      (sweep (table_fetch "Cutoff" rising_samples) "Cutoff" "Cutoff"
             example_candidates (sweep_state [(-9)%float] [0.5%float])).1
      !! "Cutoff" = Some ([(-9)%float] ++ ss.*1) /\
    force_array
      (sweep (table_fetch "Cutoff" rising_samples) "Cutoff" "Cutoff"
             example_candidates (sweep_state [(-9)%float] [0.5%float])).1
      !! "Cutoff" = Some ([0.5%float] ++ ss.*2) /\
    Forall2 (fun c s =>
               table_fetch "Cutoff" rising_samples
                 (<["Cutoff" := VInt c]>
                    (m_grid (sweep_state [(-9)%float] [0.5%float]))) = Ok s)
            (take (length ss) example_candidates) ss /\
    (length ss <= length example_candidates)%nat.
Proof.
  apply (stage_records_samples_in_order (table_fetch "Cutoff" rising_samples)
           "Cutoff" "Cutoff" example_candidates
           (sweep_state [(-9)%float] [0.5%float]) [(-9)%float] [0.5%float]);
    reflexivity.
Defined.

(** *** Before the first stage *)

Lemma np_linspace_int_head (start stop : Q) (n : nat) :
  (2 <= n)%nat -> head (np_linspace_int start stop n) = Some (Qfloor start).
Proof.
  intros Hn. rewrite head_lookup, np_linspace_int_lookup by lia. f_equal.
  apply Qfloor_comp. unfold linspace_sample.
  destruct (decide _); [lia|]. simpl. ring.
Qed.

Lemma setup_eq (self : optimizer) (ac bc ar br an bn : Q) :
  start self !! "Cutoff" = Some ac -> stop self !! "Cutoff" = Some bc ->
  start self !! "Rel_cutoff" = Some ar -> stop self !! "Rel_cutoff" = Some br ->
  start self !! "Ngrids" = Some an -> stop self !! "Ngrids" = Some bn ->
  setup self = (after_setup ac bc ar br an bn self, Ok tt).
Proof.
  intros H1 H2 H3 H4 H5 H6. unfold setup, mbind, method_bind.
  rewrite (GridFacts.get_static_range_eq self ac bc ar br an bn) by done.
  unfold _set_defaults_parameters, _update_property, _build_cell,
    mbind, method_bind, mret, method_ret, modify, get, lift, getitem.
  cbn [loop_range set_loop_range].
  rewrite lookup_insert_ne, lookup_insert_eq by done. cbn [of_option].
  rewrite np_linspace_int_head by lia. cbn [of_option].
  rewrite lookup_insert_eq. cbn [of_option].
  rewrite np_linspace_int_head by lia. reflexivity.
Qed.



(** Conversely [setup] succeeds only when the three parameters are bound. *)
Lemma setup_ok_inv (self s0 : optimizer) :
  setup self = (s0, Ok tt) ->
  exists ac bc ar br an bn,
    start self !! "Cutoff" = Some ac /\ stop self !! "Cutoff" = Some bc /\
    start self !! "Rel_cutoff" = Some ar /\ stop self !! "Rel_cutoff" = Some br /\
    start self !! "Ngrids" = Some an /\ stop self !! "Ngrids" = Some bn /\
    s0 = after_setup ac bc ar br an bn self.
Proof.
  intros H.
  destruct (start self !! "Cutoff") as [ac|] eqn:H1;
    [|by unfold setup, _get_static_range, mbind, method_bind, get, lift,
         getitem in H; rewrite H1 in H].
  destruct (stop self !! "Cutoff") as [bc|] eqn:H2;
    [|by unfold setup, _get_static_range, mbind, method_bind, get, lift,
         getitem in H; rewrite H1, H2 in H].
  destruct (start self !! "Rel_cutoff") as [ar|] eqn:H3;
    [|by unfold setup, _get_static_range, mbind, method_bind, get, lift,
         getitem in H; rewrite H1, H2, H3 in H].
  destruct (stop self !! "Rel_cutoff") as [br|] eqn:H4;
    [|by unfold setup, _get_static_range, mbind, method_bind, get, lift,
         getitem in H; rewrite H1, H2, H3, H4 in H].
  destruct (start self !! "Ngrids") as [an|] eqn:H5;
    [|by unfold setup, _get_static_range, mbind, method_bind, get, lift,
         getitem in H; rewrite H1, H2, H3, H4, H5 in H].
  destruct (stop self !! "Ngrids") as [bn|] eqn:H6;
    [|by unfold setup, _get_static_range, mbind, method_bind, get, lift,
         getitem in H; rewrite H1, H2, H3, H4, H5, H6 in H].
  exists ac, bc, ar, br, an, bn. repeat split; try done.
  rewrite (setup_eq self ac bc ar br an bn) in H by done.
  by injection H.
Qed.

(** On every outcome [setup] leaves the histories and the log of runs. *)
Lemma setup_keeps (self : optimizer) :
  runs (setup self).1 = runs self /\
  energy_array (setup self).1 = energy_array self /\
  force_array (setup self).1 = force_array self.
Proof.
  unfold setup, _get_static_range, _set_defaults_parameters, _update_property,
    _build_cell, mbind, method_bind, mret, method_ret, modify, get, lift, getitem.
  repeat match goal with
         | |- context [of_option ?o _] => destruct o; simpl
         end; done.
Qed.


Section WholeRun.
Variable fetch : gmap string value -> result (float * float).

(** The third stage checks the key [nNrids]: without a history under that
    name it raises [KeyError] once the first sample of the grid count is
    recorded, after exactly one run. *)
Theorem n_grids_stage_key_error (self : optimizer) (c : Z) (rest : list Z)
    (e f : float) (ea fa : list float) :
  loop_range self !! "Ngrids" = Some (c :: rest) ->
  fetch (<["Ngrids" := VInt c]> (m_grid self)) = Ok (e, f) ->
  energy_array self !! "Ngrids" = Some ea ->
  force_array self !! "Ngrids" = Some fa ->
  energy_array self !! "nNrids" = None ->
  _run_n_grids_optimization fetch self
  = (after_run "Ngrids" c e f ea fa self, Raise (KeyError "nNrids")).
Proof.
  intros Hl Hf He Hfa Hn.
  unfold _run_n_grids_optimization. rewrite run_stage_unfold, Hl.
  destruct (sweep_turn fetch "Ngrids" "nNrids" c rest self)
    as [(x & Hf' & _)|[(s & _ & He' & _)|[(e' & f' & ea' & _ & _ & Hfa' & _)
       |(e' & f' & ea' & fa' & Hf' & He' & Hfa' & ->)]]]; try congruence.
  assert (e' = e) as -> by congruence. assert (f' = f) as -> by congruence.
  assert (ea' = ea) as -> by congruence. assert (fa' = fa) as -> by congruence.
  cbv zeta.
  unfold _check_progress, mbind, method_bind, get, lift, getitem. simpl.
  rewrite lookup_insert_ne by done. by rewrite Hn.
Qed.

(** Without a history named [nNrids], [run_optimizer] never returns
    normally: whatever the engine delivers, some step raises. *)
Theorem run_optimizer_never_completes (self : optimizer) :
  energy_array self !! "nNrids" = None ->
  exists x, (run_optimizer fetch self).2 = Raise x.
Proof.
  intros Hn. rewrite run_optimizer_unfold.
  destruct (setup self) as [s0 [[]|x]] eqn:H0; [|by exists x].
  pose proof (setup_keeps self) as (_ & Hke & _). rewrite H0 in Hke. simpl in Hke.
  apply setup_ok_inv in H0 as (ac & bc & ar & br & an & bn & _ & _ & _ & _ & _ & _ & Hs0).
  assert (Hl0 : loop_range s0 !! "Ngrids" = Some (np_linspace_int an bn 4)).
  { rewrite Hs0. simpl. apply lookup_insert_eq. }
  assert (Hn0 : energy_array s0 !! "nNrids" = None) by by rewrite Hke.
  clear Hs0 Hke.
  unfold _run_cutoff_optimization, _run_rel_cutoff_optimization,
    _run_n_grids_optimization.
  destruct (run_stage_frame fetch "Cutoff" "Cutoff" s0) as [(_&_&_&_&_&Hl1) Hk1].
  specialize (Hk1 "nNrids" ltac:(done)).
  destruct (run_stage fetch "Cutoff" "Cutoff" s0) as [s1 [e1|x]];
    [|by exists x]. simpl in *.
  destruct (run_stage_frame fetch "Rel_cutoff" "Rel_cutoff" s1)
    as [(_&_&_&_&_&Hl2) Hk2].
  specialize (Hk2 "nNrids" ltac:(done)).
  destruct (run_stage fetch "Rel_cutoff" "Rel_cutoff" s1) as [s2 [e2|x]];
    [|by exists x]. simpl in *.
  assert (Hl : loop_range s2 !! "Ngrids" = Some (np_linspace_int an bn 4))
    by by rewrite Hl2, Hl1.
  assert (Hn2 : energy_array s2 !! "nNrids" = None) by by rewrite Hk2, Hk1.
  rewrite run_stage_unfold, Hl.
  pose proof (np_linspace_int_length an bn 4) as Hlen.
  destruct (np_linspace_int an bn 4) as [|c rest]; [discriminate|].
  destruct (sweep_turn fetch "Ngrids" "nNrids" c rest s2)
    as [(x & _ & ->)|[(s & _ & _ & ->)|[(e & f & ea & _ & _ & _ & ->)
       |(e & f & ea & fa & _ & _ & _ & ->)]]]; try by eexists.
  cbv zeta.
  unfold _check_progress, mbind, method_bind, get, lift, getitem. simpl.
  rewrite lookup_insert_ne by done. rewrite Hn2. by eexists.
Qed.

(** [run_optimizer] runs the engine at most 24 times: once per candidate of
    the ranges of 10, 10 and 4 samples. *)
Theorem run_optimizer_run_bound (self : optimizer) :
  (length (runs (run_optimizer fetch self).1) <= length (runs self) + 24)%nat.
Proof.
  rewrite run_optimizer_unfold.
  pose proof (setup_keeps self) as (Hr & _ & _).
  destruct (setup self) as [s0 [[]|x]] eqn:H0; simpl in Hr;
    apply (f_equal length) in Hr; [|simpl; lia].
  apply setup_ok_inv in H0 as (ac & bc & ar & br & an & bn & _ & _ & _ & _ & _ & _ & Hs0).
  assert (Hc : loop_range s0 !! "Cutoff" = Some (np_linspace_int ac bc 10)).
  { rewrite Hs0. simpl. by simplify_map_eq. }
  assert (Hrel : loop_range s0 !! "Rel_cutoff" = Some (np_linspace_int ar br 10)).
  { rewrite Hs0. simpl. by simplify_map_eq. }
  assert (Hng : loop_range s0 !! "Ngrids" = Some (np_linspace_int an bn 4)).
  { rewrite Hs0. simpl. apply lookup_insert_eq. }
  clear Hs0.
  unfold _run_cutoff_optimization, _run_rel_cutoff_optimization,
    _run_n_grids_optimization.
  pose proof (run_stage_runs_bound fetch "Cutoff" "Cutoff" s0 _ Hc) as B1.
  destruct (run_stage_frame fetch "Cutoff" "Cutoff" s0) as [(_&_&_&_&_&Hl1) _].
  rewrite np_linspace_int_length in B1.
  destruct (run_stage fetch "Cutoff" "Cutoff" s0) as [s1 [e1|x]];
    simpl in *; [|lia].
  rewrite <- Hl1 in Hrel, Hng.
  pose proof (run_stage_runs_bound fetch "Rel_cutoff" "Rel_cutoff" s1 _ Hrel) as B2.
  destruct (run_stage_frame fetch "Rel_cutoff" "Rel_cutoff" s1)
    as [(_&_&_&_&_&Hl2) _].
  rewrite np_linspace_int_length in B2.
  destruct (run_stage fetch "Rel_cutoff" "Rel_cutoff" s1) as [s2 [e2|x]];
    simpl in *; [|lia].
  rewrite <- Hl2 in Hng.
  pose proof (run_stage_runs_bound fetch "Ngrids" "nNrids" s2 _ Hng) as B3.
  rewrite np_linspace_int_length in B3.
  destruct (run_stage fetch "Ngrids" "nNrids" s2) as [s3 [e3|x]];
    simpl in *; lia.
Qed.

End WholeRun.

Lemma n_grids_stage_key_error_witness :
  _run_n_grids_optimization (constant_fetch (-1)%float 0.5%float)
    (after_setup 100 1500 60 120 5 8 seeded_optimizer)
  = (after_run "Ngrids" 5 (-1)%float 0.5%float [0%float] [1%float]
       (after_setup 100 1500 60 120 5 8 seeded_optimizer),
     Raise (KeyError "nNrids")).
Proof.
  apply (n_grids_stage_key_error (constant_fetch (-1)%float 0.5%float)
           (after_setup 100 1500 60 120 5 8 seeded_optimizer) 5 [6; 7; 8]
           (-1)%float 0.5%float [0%float] [1%float]);
    reflexivity.
Defined.

Lemma run_optimizer_never_completes_witness :
  exists x,
    (run_optimizer (constant_fetch (-1)%float 0.5%float) seeded_optimizer).2
    = Raise x.
Proof.
  apply (run_optimizer_never_completes (constant_fetch (-1)%float 0.5%float)
           seeded_optimizer).
  reflexivity.
Defined.


(** *** Writing settings and ranges *)

Lemma foldl_insert_notin (updater : list (string * value)) :
  forall (mg : gmap string value) (k : string),
  k ∉ updater.*1 ->
  foldl (fun mg item => <[item.1 := item.2]> mg) mg updater !! k = mg !! k.
Proof.
  induction updater as [|[k0 v0] rest IH]; intros mg k Hk; [reflexivity|].
  simpl in *. apply not_elem_of_cons in Hk as [Hne Hk].
  rewrite IH by done. by rewrite lookup_insert_ne.
Qed.

(** [_update_property] with a dict (distinct keys): afterwards every key of
    the dict reads back its value, every other setting is as before, and
    nothing but the MGRID section has changed. *)
Theorem update_property_lookup (updater : list (string * value)) (self : optimizer) :
  NoDup updater.*1 ->
  (_update_property updater self).2 = Ok tt /\
  (forall k v, (k, v) ∈ updater ->
     m_grid (_update_property updater self).1 !! k = Some v) /\
  (forall k, k ∉ updater.*1 ->
     m_grid (_update_property updater self).1 !! k = m_grid self !! k) /\
  same_settings self (_update_property updater self).1 /\
  energy_array (_update_property updater self).1 = energy_array self /\
  force_array (_update_property updater self).1 = force_array self /\
  runs (_update_property updater self).1 = runs self.
Proof.
  intros Hnd. unfold _update_property, modify. simpl.
  repeat split; try done.
  - revert Hnd. generalize (m_grid self).
    induction updater as [|[k0 v0] rest IH]; intros mg Hnd k v Hin.
    + by apply elem_of_nil in Hin.
    + simpl in *. apply NoDup_cons in Hnd as [Hk0 Hnd].
      apply elem_of_cons in Hin as [Heq|Hin].
      * injection Heq as -> ->. rewrite foldl_insert_notin by done.
        apply lookup_insert_eq.
      * by apply IH.
  - intros k Hk. by apply foldl_insert_notin.
Qed.

Lemma update_property_lookup_witness :
  (_update_property [("Rel_cutoff", VInt 60); ("Ngrids", VInt 5)]
     default_optimizer).2 = Ok tt /\
  (forall k v, (k, v) ∈ [("Rel_cutoff", VInt 60); ("Ngrids", VInt 5)] ->
     m_grid (_update_property [("Rel_cutoff", VInt 60); ("Ngrids", VInt 5)]
               default_optimizer).1 !! k = Some v) /\
  (forall k, k ∉ [("Rel_cutoff", VInt 60); ("Ngrids", VInt 5)].*1 ->
     m_grid (_update_property [("Rel_cutoff", VInt 60); ("Ngrids", VInt 5)]
               default_optimizer).1 !! k = m_grid default_optimizer !! k) /\
  same_settings default_optimizer
    (_update_property [("Rel_cutoff", VInt 60); ("Ngrids", VInt 5)]
       default_optimizer).1 /\
  energy_array (_update_property [("Rel_cutoff", VInt 60); ("Ngrids", VInt 5)]
                  default_optimizer).1 = energy_array default_optimizer /\
  force_array (_update_property [("Rel_cutoff", VInt 60); ("Ngrids", VInt 5)]
                 default_optimizer).1 = force_array default_optimizer /\
  runs (_update_property [("Rel_cutoff", VInt 60); ("Ngrids", VInt 5)]
          default_optimizer).1 = runs default_optimizer.
Proof.
  apply (update_property_lookup [("Rel_cutoff", VInt 60); ("Ngrids", VInt 5)]
           default_optimizer).
  apply (bool_decide_unpack _). vm_compute. exact I.
Defined.

(** Calling [_get_static_range] twice is the same as calling it once, also
    when a bound is missing and it raises. *)
Theorem get_static_range_idempotent (self : optimizer) :
  (_get_static_range;; _get_static_range) self = _get_static_range self.
Proof.
  unfold mbind at 1. unfold method_bind at 1.
  destruct (_get_static_range self) as [s1 [[]|x]] eqn:H; [|reflexivity].
  destruct (start self !! "Cutoff") as [ac|] eqn:H1;
    [|by unfold _get_static_range, mbind, method_bind, get, lift, getitem in H;
         rewrite H1 in H].
  destruct (stop self !! "Cutoff") as [bc|] eqn:H2;
    [|by unfold _get_static_range, mbind, method_bind, get, lift, getitem in H;
         rewrite H1, H2 in H].
  destruct (start self !! "Rel_cutoff") as [ar|] eqn:H3;
    [|by unfold _get_static_range, mbind, method_bind, get, lift, getitem in H;
         rewrite H1, H2, H3 in H].
  destruct (stop self !! "Rel_cutoff") as [br|] eqn:H4;
    [|by unfold _get_static_range, mbind, method_bind, get, lift, getitem in H;
         rewrite H1, H2, H3, H4 in H].
  destruct (start self !! "Ngrids") as [an|] eqn:H5;
    [|by unfold _get_static_range, mbind, method_bind, get, lift, getitem in H;
         rewrite H1, H2, H3, H4, H5 in H].
  destruct (stop self !! "Ngrids") as [bn|] eqn:H6;
    [|by unfold _get_static_range, mbind, method_bind, get, lift, getitem in H;
         rewrite H1, H2, H3, H4, H5, H6 in H].
  rewrite (GridFacts.get_static_range_eq self ac bc ar br an bn) in H by done.
  injection H as <-.
  rewrite (GridFacts.get_static_range_eq _ ac bc ar br an bn) by done.
  f_equal. destruct self as [st sp tol cw pn mg lr fa ea rs].
  unfold set_loop_range. simpl. f_equal.
  apply map_eq. intros k.
  destruct (decide (k = "Ngrids")) as [->|]; [by rewrite !lookup_insert_eq|].
  rewrite (lookup_insert_ne _ "Ngrids") by done.
  destruct (decide (k = "Rel_cutoff")) as [->|];
    [by rewrite lookup_insert_eq, lookup_insert_ne, lookup_insert_eq|].
  rewrite (lookup_insert_ne _ "Rel_cutoff") by done.
  destruct (decide (k = "Cutoff")) as [->|].
  { rewrite lookup_insert_eq.
    by rewrite lookup_insert_ne, lookup_insert_ne, lookup_insert_eq. }
  by rewrite !lookup_insert_ne.
Qed.

End GridSweepFacts.

(** ** More on reading the output file *)

Section ReadEdges.
Variable py_float : string -> option float.

Lemma read_energy_loop_app (energy : option float) (l1 l2 : list string) :
  read_energy_loop py_float energy (l1 ++ l2)
  = (energy' ← read_energy_loop py_float energy l1;
     read_energy_loop py_float energy' l2).
Proof.
  revert energy. induction l1 as [|line rest IH]; intros energy; [reflexivity|].
  simpl. destruct (contains "Total FORCE_EVAL" line); [|apply IH].
  destruct (index_neg1 (split line)) as [tok|]; [|reflexivity]. simpl.
  destruct (of_option (py_float tok) ValueError); [|reflexivity]. simpl.
  apply IH.
Qed.

(** Every line that carries the energy marker is converted, not only the
    last one: a marker line whose last token is not a number makes
    [_read_energy] raise [ValueError], even when a later marker line is
    well formed. *)
Theorem read_energy_bad_marker_line (pre post : list string) (bad tok : string) :
  Forall (fun line => contains "Total FORCE_EVAL" line = true ->
                      is_Some (trailing_number py_float line)) pre ->
  contains "Total FORCE_EVAL" bad = true ->
  last (split bad) = Some tok ->
  py_float tok = None ->
  _read_energy py_float (pre ++ bad :: post) = Raise ValueError.
Proof.
  intros Hpre Hbad Htok Hnone. unfold _read_energy.
  rewrite read_energy_loop_app, (read_energy_loop_spec _ _ _ Hpre).
  simpl. rewrite Hbad. unfold index_neg1. rewrite Htok. simpl.
  by rewrite Hnone.
Qed.

Lemma find_markers_no_start (i : Z) (f_object : list string) (stop : option Z) :
  Forall (fun line => contains pattern_1 line = false) f_object ->
  (find_markers i f_object None stop).1 = None.
Proof.
  intros H. revert i stop. induction H as [|l r Hl _ IH]; intros i stop;
    [reflexivity|].
  simpl. rewrite Hl. destruct (contains pattern_2 l); apply IH.
Qed.

(** A file without the start marker of the force table: the first line read
    by the second loop compares its index with the unbound local [start],
    and [_read_forces] raises [UnboundLocalError], with or without an end
    marker. *)
Theorem read_forces_no_start_marker (line : string) (rest : list string)
    (n_atoms : Z) :
  Forall (fun line => contains pattern_1 line = false) (line :: rest) ->
  _read_forces py_float (line :: rest) n_atoms
  = Raise (UnboundLocalError "start").
Proof.
  intros H. unfold _read_forces.
  pose proof (find_markers_no_start 0 (line :: rest) None H) as Hs.
  destruct (find_markers 0 (line :: rest) None None) as [start stop].
  simpl in Hs. subst start. reflexivity.
Qed.

End ReadEdges.

Lemma read_energy_bad_marker_line_witness :
  _read_energy py_float_dec
    ([" SCF run converged";
      " ENERGY| Total FORCE_EVAL ( QS ) energy [a.u.]:     -17.25"]
     ++ starred_energy_line
        :: [" ENERGY| Total FORCE_EVAL ( QS ) energy [a.u.]:     -17.5"])
  = Raise ValueError.
Proof.
  apply (read_energy_bad_marker_line py_float_dec
           [" SCF run converged";
            " ENERGY| Total FORCE_EVAL ( QS ) energy [a.u.]:     -17.25"]
           [" ENERGY| Total FORCE_EVAL ( QS ) energy [a.u.]:     -17.5"]
           starred_energy_line "********").
  - repeat constructor; intros Hc; vm_compute in Hc; try discriminate Hc;
      vm_compute; eauto.
  - reflexivity.
  - reflexivity.
  - reflexivity.
Defined.

Lemma read_forces_no_start_marker_witness :
  _read_forces py_float_dec
    ("2" :: [" ENERGY| Total FORCE_EVAL ( QS ) energy [a.u.]:     -17.5";
             " SUM OF ATOMIC FORCES    3.0  4.0  1.0  5.1"]) 2
  = Raise (UnboundLocalError "start").
Proof.
  apply (read_forces_no_start_marker py_float_dec "2"
           [" ENERGY| Total FORCE_EVAL ( QS ) energy [a.u.]:     -17.5";
            " SUM OF ATOMIC FORCES    3.0  4.0  1.0  5.1"] 2).
  repeat constructor.
Defined.

(** ** More on the convergence check *)

Lemma np_diff_length (a : list float) : length (np_diff a) = (length a - 1)%nat.
Proof.
  induction a as [|x [|y t] IH]; [reflexivity | reflexivity|].
  change (np_diff (x :: y :: t)) with (PrimFloat.sub y x :: np_diff (y :: t)).
  simpl in *. rewrite IH. lia.
Qed.

(** The only values of [_check_progress] are [0] and [1]; it raises only
    [IndexError], and exactly when the energy history has two samples or
    more, its last difference is non-zero and the force history has fewer
    than two samples. With equal last energies the short force history is
    never read, and the answer is [1]. *)
Theorem check_progress_outcomes (energy_array force_array : list float)
    (tolerance : float) :
  match check_progress energy_array force_array tolerance with
  | Ok r => r = 0 \/ r = 1
  | Raise x =>
      x = IndexError /\
      (2 <= length energy_array)%nat /\ (length force_array < 2)%nat /\
      exists en, last (np_diff energy_array) = Some en /\ truthy en = true
  end /\
  ((length force_array < 2 <= length energy_array)%nat ->
   forall en, last (np_diff energy_array) = Some en ->
     check_progress energy_array force_array tolerance
     = if truthy en then Raise IndexError else Ok 1).
Proof.
  assert (Hf : (length force_array < 2)%nat -> last (np_diff force_array) = None).
  { intros H. apply last_None, nil_length_inv. rewrite np_diff_length. lia. }
  assert (Hf' : last (np_diff force_array) = None ->
                (length force_array < 2)%nat).
  { intros H. apply last_None in H. apply (f_equal length) in H.
    rewrite np_diff_length in H. simpl in H. lia. }
  unfold check_progress. destruct (decide _) as [Hlt|Hge].
  - split; [by left | intros; lia].
  - destruct (two_last energy_array ltac:(lia)) as (pe & e1 & e2 & ->).
    unfold index_neg1. rewrite last_np_diff. simpl. split.
    + destruct (truthy _) eqn:Ht; simpl; [|by right].
      destruct (last (np_diff force_array)) as [fr|] eqn:Hl; simpl.
      * destruct (PrimFloat.ltb fr tolerance); [by left | by right].
      * repeat split; try lia; [by apply Hf' | eauto].
    + intros [Hlf _] en Hen. injection Hen as <-.
      destruct (truthy _); [|reflexivity]. by rewrite Hf.
Qed.

(** ** Every outcome of the loop of [CutoffOptimizer] *)

Module CutoffSweepFacts.
Import CutoffOptimizer.

Section CutoffOutcomes.
Variable get_potential_energies : Z -> result float.
Variable get_reduced_forces : Z -> result float.

Abbreviation sweep' := (sweep get_potential_energies get_reduced_forces).

(** The ways in which one turn of the loop can go. *)
Lemma cutoff_sweep_turn (c : Z) (rest : list Z) (self : optimizer) :
  (calculator self = None /\
   sweep' (c :: rest) self = (self, Raise (AttributeError "calculator"))) \/
  (exists calc,
     calculator self = Some calc /\
     let s0 := Optimizer (start self) (stop self) (tolerance self)
                 (Some (<["cutoff" := VInt c]> calc)) (loop_range self)
                 (force_array self) (energy_array self) (runs self ++ [c]) in
     (exists x, get_potential_energies c = Raise x /\
                sweep' (c :: rest) self = (s0, Raise x)) \/
     (exists e,
        get_potential_energies c = Ok e /\
        let s1 := Optimizer (start self) (stop self) (tolerance self)
                    (Some (<["cutoff" := VInt c]> calc)) (loop_range self)
                    (force_array self) (energy_array self ++ [e])
                    (runs self ++ [c]) in
        (exists x, get_reduced_forces c = Raise x /\
                   sweep' (c :: rest) self = (s1, Raise x)) \/
        (exists f,
           get_reduced_forces c = Ok f /\
           let s2 := Optimizer (start self) (stop self) (tolerance self)
                       (Some (<["cutoff" := VInt c]> calc)) (loop_range self)
                       (force_array self ++ [f]) (energy_array self ++ [e])
                       (runs self ++ [c]) in
           sweep' (c :: rest) self
           = match check_progress (energy_array self ++ [e])
                                  (force_array self ++ [f]) (tolerance self) with
             | Raise x => (s2, Raise x)
             | Ok r => if decide (r = 1) then sweep' rest s2 else (s2, Ok Break)
             end))).
Proof.
  cbn [sweep].
  unfold _perform_loop_operation, _run_scf_minimization, _check_progress,
    mbind, method_bind, mret, method_ret, modify, get, lift.
  destruct (calculator self) as [calc|]; [right | by left].
  exists calc. split; [done|]. simpl.
  destruct (get_potential_energies c) as [e|x]; [right | left; by exists x].
  exists e. split; [done|]. simpl.
  destruct (get_reduced_forces c) as [f|x]; [right | left; by exists x].
  exists f. split; [done|]. simpl.
  destruct (check_progress _ _ _) as [r|x]; [|reflexivity].
  by destruct (decide (r = 1)).
Qed.

Lemma cutoff_sweep_inv (cs : list Z) (self : optimizer) :
  exists (n : nat) (ne nf : list float),
    (n <= length cs)%nat /\
    runs (sweep' cs self).1 = runs self ++ take n cs /\
    energy_array (sweep' cs self).1 = energy_array self ++ ne /\
    force_array (sweep' cs self).1 = force_array self ++ nf /\
    (length nf <= length ne <= n)%nat /\
    match (sweep' cs self).2 with
    | Ok e =>
        length nf = n /\ length ne = n /\
        (e = Exhausted -> n = length cs) /\
        (e = Break -> n <> 0%nat) /\
        (n <> 0%nat -> exists c calc,
           last (take n cs) = Some c /\
           calculator (sweep' cs self).1 = Some calc /\
           calc !! "cutoff" = Some (VInt c))
    | Raise _ => True
    end.
Proof.
  revert self. induction cs as [|c rest IH]; intros self.
  - exists 0%nat, [], []. simpl. rewrite !app_nil_r. repeat split; done.
  - destruct (cutoff_sweep_turn c rest self)
      as [[_ ->]|(calc & Hc & [(x & _ & ->)|(e & _ & [(x & _ & ->)|(f & _ & ->)])])].
    + exists 0%nat, [], []. simpl. rewrite !app_nil_r. repeat split; done || lia.
    + exists 1%nat, [], []. simpl. rewrite !app_nil_r. repeat split; done || lia.
    + exists 1%nat, [e], []. simpl. rewrite !app_nil_r. repeat split; done || lia.
    + cbv zeta. match goal with |- context [if _ then _ else (?s, _)] =>
        set (s2 := s) end.
      destruct (check_progress _ _ _) as [r|x].
      2:{ exists 1%nat, [e], [f]. subst s2. simpl. repeat split; done || lia. }
      destruct (decide (r = 1)) as [_|_].
      * destruct (IH s2) as (n & ne & nf & Hn & Hr & He & Hf & Hl & Hm).
        exists (S n), (e :: ne), (f :: nf). simpl.
        rewrite Hr, He, Hf. subst s2. simpl. rewrite <- !app_assoc. simpl.
        repeat split; try done; try lia.
        destruct ((sweep' rest _).2) as [ex|]; [|done].
        destruct Hm as (Hnf & Hne & Hex & Hbr & Hcalc).
        repeat split; try lia; [intros; f_equal; auto|].
        intros _. destruct n as [|n].
        { exists c, (<["cutoff" := VInt c]> calc). simpl.
          destruct ex; [|by destruct Hbr].
          assert (rest = []) as -> by (apply nil_length_inv; by rewrite <- Hex).
          simpl. by rewrite lookup_insert_eq. }
        destruct (Hcalc ltac:(done)) as (c' & calc' & Hlast & Hcal & Hcut).
        exists c', calc'. repeat split; try done.
        rewrite last_cons. by rewrite Hlast.
      * exists 1%nat, [e], [f]. subst s2. simpl.
        repeat split; try done; try lia.
        intros _. exists c, (<["cutoff" := VInt c]> calc).
        by rewrite lookup_insert_eq.
Qed.


(** Whatever the calculator returns and however the loop ends: the runs are
    those of the first [n] candidates, in order; the two histories keep
    their earlier samples, the force history never gains more than the
    energy history; when the loop ends normally each run gave one sample to
    each history, and the calculator keeps the cutoff of the last run (the
    cutoff that met the stop, not the one before it). *)
Theorem cutoff_sweep_all_outcomes (cs : list Z) (self : optimizer) :
  exists (n : nat) (ne nf : list float),
    (n <= length cs)%nat /\
    runs (sweep' cs self).1 = runs self ++ take n cs /\
    energy_array (sweep' cs self).1 = energy_array self ++ ne /\
    force_array (sweep' cs self).1 = force_array self ++ nf /\
    (length nf <= length ne <= n)%nat /\
    match (sweep' cs self).2 with
    | Ok e =>
        length nf = n /\ length ne = n /\
        (e = Exhausted -> n = length cs) /\
        (e = Break -> n <> 0%nat) /\
        (n <> 0%nat -> exists c calc,
           last (take n cs) = Some c /\
           calculator (sweep' cs self).1 = Some calc /\
           calc !! "cutoff" = Some (VInt c))
    | Raise _ => True
    end.
Proof. apply cutoff_sweep_inv. Qed.

(** [run_optimizer] never builds the calculator: on an optimizer that comes
    from the constructor it stores the range and then raises
    [AttributeError] at the first candidate, before any run. *)
Theorem cutoff_fresh_run_raises (start : Q) (stop : stop_arg)
    (calc_parameters : option (gmap string value)) (tolerance : float)
    (self : optimizer) :
  __init__ start stop calc_parameters tolerance = Ok self ->
  run_optimizer get_potential_energies get_reduced_forces self
  = ((_get_static_range self).1, Raise (AttributeError "calculator")) /\
  runs (_get_static_range self).1 = [] /\
  energy_array (_get_static_range self).1 = [] /\
  force_array (_get_static_range self).1 = [].
Proof.
  intros H. unfold __init__ in H.
  destruct stop as [q|s]; [|discriminate].
  destruct calc_parameters as [params|]; [|discriminate].
  injection H as <-. split; [|done].
  unfold run_optimizer, mbind, method_bind, _get_static_range, modify, get, lift.
  simpl. pose proof (np_linspace_int_length start q 10) as Hlen.
  destruct (np_linspace_int start q 10) as [|c rest]; [discriminate|].
  reflexivity.
Qed.

Lemma cutoff_run_optimizer_unfold (self : optimizer) :
  run_optimizer get_potential_energies get_reduced_forces self
  = sweep' (np_linspace_int (start self) (stop self) 10)
           (_get_static_range self).1.
Proof. reflexivity. Qed.

(** [run_optimizer] runs the calculator at most 10 times. *)
Theorem cutoff_run_bound (self : optimizer) :
  (length (runs (run_optimizer get_potential_energies get_reduced_forces self).1)
   <= length (runs self) + 10)%nat.
Proof.
  rewrite cutoff_run_optimizer_unfold.
  destruct (cutoff_sweep_inv
              (np_linspace_int (start self) (stop self) 10)
              (_get_static_range self).1) as (n & ne & nf & Hn & Hr & _).
  rewrite Hr, length_app, length_take, np_linspace_int_length. simpl. lia.
Qed.

End CutoffOutcomes.

Lemma cutoff_fresh_run_raises_witness :
  run_optimizer (fun c => Ok (-10)%float) (fun c => Ok 1%float)
    (Optimizer 100 400 0x1.0624dd2f1a9fcp-9%float None None [] [] [])
  = ((_get_static_range
        (Optimizer 100 400 0x1.0624dd2f1a9fcp-9%float None None [] [] [])).1,
     Raise (AttributeError "calculator")) /\
  runs (_get_static_range
          (Optimizer 100 400 0x1.0624dd2f1a9fcp-9%float None None [] [] [])).1
  = [] /\
  energy_array
    (_get_static_range
       (Optimizer 100 400 0x1.0624dd2f1a9fcp-9%float None None [] [] [])).1
  = [] /\
  force_array
    (_get_static_range
       (Optimizer 100 400 0x1.0624dd2f1a9fcp-9%float None None [] [] [])).1
  = [].
Proof.
  apply (cutoff_fresh_run_raises (fun c => Ok (-10)%float) (fun c => Ok 1%float)
           100 (StopNum 400) (Some ∅) 0x1.0624dd2f1a9fcp-9%float
           (Optimizer 100 400 0x1.0624dd2f1a9fcp-9%float None None [] [] [])).
  reflexivity.
Defined.
End CutoffSweepFacts.
